(** * carcinologer: the resilient paginated-fetch client of [carcinologer/api.py]

    A shallow embedding of [MoltbookAPI] ([_request], [get_posts],
    [get_post_comments], [get_all_posts]) and the properties of its retry
    loop and of its cursor pagination loop.

    Modelling conventions.
    - Python [int] is [Z]; [range(n)] is empty for [n <= 0].
    - [retry_delay] is a finite Python [float], given by the rational it
      denotes ([Q]).  What the Python runtime makes of the float product
      [retry_delay * (attempt + 1)] and which lengths [time.sleep] refuses
      are not fixed here: they are a parameter, the [Runtime].
    - A decoded JSON body is a [json] value; Python's [None] is [JNull].
    - The remote service is a function [net] from the index of a request (how
      many were sent before it) and the request to what the transport does.
    - Effects (requests sent, sleeps, exceptions) are threaded through the
      monad [M]; the [while True] loop of [get_all_posts] takes fuel.
    - Of httpx, [raise_for_status] raises unless the status is 2xx and
      [json] raises when the body does not decode; an exception is truthy.
    - Console output ([print]) and the page counter that only feeds it are
      not modelled. *)

From Stdlib Require Import ZArith QArith List String Bool Lia Arith DecimalString Sorted.
Import ListNotations.

Open Scope string_scope.
Open Scope Z_scope.

(** ** Decoded JSON values *)

#[warnings="-register-all"]
Inductive json : Type :=
| JNull
| JBool (b : bool)
| JInt (n : Z)
| JFloat (q : Q)
| JStr (s : string)
| JArr (items : list json)
| JObj (fields : list (string * json)).

(** Python truthiness of a decoded value ([if v:]). *)
Definition truthy (v : json) : bool :=
  match v with
  | JNull => false
  | JBool b => b
  | JInt n => negb (n =? 0)
  | JFloat q => negb (Qeq_bool q 0)
  | JStr s => negb (String.eqb s "")
  | JArr items => match items with [] => false | _ => true end
  | JObj fields => match fields with [] => false | _ => true end
  end.

(** ** Exceptions *)

Inductive exn : Type :=
| TimeoutException (tag : nat)   (* httpx.TimeoutException; [tag] names the instance *)
| TransportError (tag : nat)     (* any other exception of client.request *)
| HTTPStatusError (status : Z)
| JSONDecodeError                (* what [r.json()] raises on a body that does not
                                    decode: json.JSONDecodeError, or
                                    UnicodeDecodeError on bytes that are no text;
                                    the two are not told apart *)
| KeyError (key : string)
| TypeError
| AttributeError
| ValueError
| OverflowError
| UnboundLocalError (var : string).

Definition is_timeout (e : exn) : bool :=
  match e with TimeoutException _ => true | _ => false end.

(** ** Responses, requests, the remote service *)

Record Response : Type := mkResponse {
  status_code : Z;
  body : option json          (* [None]: the body does not decode, [r.json()] raises *)
}.

Record HttpRequest : Type := mkRequest {
  req_method : string;
  req_url : string;
  req_headers : list (string * string)
}.

Inductive net_outcome : Type :=
| Responded (r : Response)
| TimedOut (tag : nat)
| NetFailed (tag : nat).

Inductive Event : Type :=
| EvRequest (req : HttpRequest)
| EvSleep (d : Q).

Record World : Type := mkWorld {
  calls : nat;                (* requests sent so far *)
  log : list Event            (* what happened, oldest first *)
}.

(** ** The monad of effects *)

Inductive Outcome (A : Type) : Type :=
| Returns (a : A)
| Raises (e : exn)
| OutOfFuel.
Arguments Returns {A} a.
Arguments Raises {A} e.
Arguments OutOfFuel {A}.

Definition M (A : Type) : Type := World -> Outcome A * World.

Definition ret {A} (a : A) : M A := fun w => (Returns a, w).
Definition raise {A} (e : exn) : M A := fun w => (Raises e, w).
Definition out_of_fuel {A} : M A := fun w => (OutOfFuel, w).

Definition bind {A B} (m : M A) (f : A -> M B) : M B :=
  fun w =>
    match m w with
    | (Returns a, w') => f a w'
    | (Raises e, w') => (Raises e, w')
    | (OutOfFuel, w') => (OutOfFuel, w')
    end.

(** [try: m except e: h e] *)
Definition try_except {A} (m : M A) (h : exn -> M A) : M A :=
  fun w =>
    match m w with
    | (Raises e, w') => h e w'
    | other => other
    end.

Declare Scope m_scope.
Delimit Scope m_scope with M.
Notation "x <- m ;; k" := (bind m (fun x => k))
  (at level 61, m at next level, right associativity) : m_scope.
Notation "m ;;; k" := (bind m (fun _ => k))
  (at level 61, right associativity) : m_scope.
Open Scope m_scope.

(** Lifting a pure computation that may raise. *)
Definition lift {A} (x : exn + A) : M A :=
  match x with inl e => raise e | inr a => ret a end.

(** ** The Python runtime: floats and the clock *)

(** The value of a float product. *)
Inductive pyfloat : Type :=
| Finite (q : Q)
| Infinite.

(** Why [time.sleep] refuses a length. *)
Inductive sleep_fault : Type :=
| NegativeLength           (* ValueError: sleep length must be non-negative *)
| TooLarge.                (* OverflowError: timestamp too large *)

Definition fault_exn (f : sleep_fault) : exn :=
  match f with
  | NegativeLength => ValueError
  | TooLarge => OverflowError
  end.

Record Runtime : Type := mkRuntime {
  (* [d * k] for a finite float [d] and an int [k], rounded as the runtime
     rounds it; [None] when [k] does not convert to a float (OverflowError) *)
  float_mul : Q -> Z -> option pyfloat;
  (* what [time.sleep] has against a finite length, if anything *)
  sleep_refuses : Q -> option sleep_fault
}.

(** A sleep of [q] seconds that takes place. *)
Definition slept (q : Q) : M unit :=
  fun w => (Returns tt, mkWorld (calls w) (log w ++ [EvSleep q])).

(** [time.sleep(d)] *)
Definition sleep (py : Runtime) (d : pyfloat) : M unit :=
  match d with
  | Infinite => raise OverflowError
  | Finite q =>
      match sleep_refuses py q with
      | Some f => raise (fault_exn f)
      | None => slept q
      end
  end.

(** [range(n)] *)
Definition range (n : Z) : list Z := map Z.of_nat (seq 0 (Z.to_nat n)).

(** ** Module constants *)

Definition BASE_URL : string := "https://www.moltbook.com".
Definition API_BASE : string := BASE_URL ++ "/api/v1".

Definition DEFAULT_HEADERS : list (string * string) :=
  [ ("User-Agent",
     "Mozilla/5.0 (X11; Linux x86_64) AppleWebKit/537.36 (KHTML, like Gecko) Chrome/120.0.0.0 Safari/537.36");
    ("Accept", "application/json") ].

(** ** The client object *)

Record MoltbookAPI : Type := mkAPI {
  client_headers : list (string * string);
  max_retries : Z;
  retry_delay : Q;
  api_key : option string
}.

(** Truthiness of [api_key : Optional[str]]. *)
Definition key_given (k : option string) : bool :=
  match k with
  | Some s => negb (String.eqb s "")
  | None => false
  end.

(** [MoltbookAPI.__init__] *)
Definition init (key : option string) (retries : Z) (delay : Q) : MoltbookAPI :=
  let headers :=
    match key with
    | Some s => if key_given key
                then (DEFAULT_HEADERS ++ [("Authorization", ("Bearer " ++ s)%string)])%list
                else DEFAULT_HEADERS
    | None => DEFAULT_HEADERS
    end in
  mkAPI headers retries delay key.

Definition is_retryable (status : Z) : bool :=
  (status =? 429) || (status =? 500) || (status =? 502) ||
  (status =? 503) || (status =? 504).

(** ** Reading decoded bodies *)

Fixpoint assoc (k : string) (fields : list (string * json)) : option json :=
  match fields with
  | [] => None
  | (k', v) :: rest => if String.eqb k k' then Some v else assoc k rest
  end.

(** [d[k]] *)
Definition getitem (d : json) (k : string) : exn + json :=
  match d with
  | JObj fields =>
      match assoc k fields with
      | Some v => inr v
      | None => inl (KeyError k)
      end
  | _ => inl TypeError
  end.

(** [d.get(k, default)] *)
Definition dict_get (d : json) (k : string) (default : json) : exn + json :=
  match d with
  | JObj fields =>
      match assoc k fields with
      | Some v => inr v
      | None => inr default
      end
  | _ => inl AttributeError
  end.

Fixpoint chars (s : string) : list json :=
  match s with
  | EmptyString => []
  | String c rest => JStr (String c EmptyString) :: chars rest
  end.

(** What [for x in v] iterates over. *)
Definition py_iter (v : json) : exn + list json :=
  match v with
  | JArr items => inr items
  | JStr s => inr (chars s)
  | JObj fields => inr (map (fun kv => JStr (fst kv)) fields)
  | _ => inl TypeError
  end.

Definition bind_sum {A B} (x : exn + A) (f : A -> exn + B) : exn + B :=
  match x with inl e => inl e | inr a => f a end.

Notation "x <-! m ;; k" := (bind_sum m (fun x => k))
  (at level 61, m at next level, right associativity).

(** A [for] loop that appends one built record per item; the first item that
    raises ends it. *)
Fixpoint for_each {A} (build : json -> exn + A) (items : list json) : exn + list A :=
  match items with
  | [] => inr []
  | x :: rest =>
      a <-! build x ;;
      l <-! for_each build rest ;;
      inr (a :: l)
  end.

(** ** Records *)

Record Post : Type := mkPost {
  post_ident : json;
  post_title : json;
  post_submolt : json;
  post_author : json;
  post_upvotes : json;
  post_downvotes : json;
  post_comment_count : json;
  post_created_at : json;
  post_content : json;
  post_url : json;
  post_is_pinned : json
}.

Record Comment : Type := mkComment {
  comment_ident : json;
  comment_content : json;
  comment_author : json;
  comment_upvotes : json;
  comment_downvotes : json;
  comment_created_at : json;
  comment_post_id : string;
  comment_parent_id : json
}.

(** The dict [{"posts": ..., "next_cursor": ...}] that [get_posts] returns. *)
Record PostsPage : Type := mkPage {
  page_posts : list Post;
  next_cursor : json
}.

(** [Post(id=p["id"], ..., is_pinned=p.get("is_pinned", False))] *)
Definition build_post (p : json) : exn + Post :=
  i <-! getitem p "id" ;;
  title <-! getitem p "title" ;;
  submolt <-! getitem p "submolt" ;;
  author <-! getitem p "author" ;;
  upvotes <-! getitem p "upvotes" ;;
  downvotes <-! getitem p "downvotes" ;;
  comment_count <-! getitem p "comment_count" ;;
  created_at <-! getitem p "created_at" ;;
  content <-! dict_get p "content" JNull ;;
  url <-! dict_get p "url" JNull ;;
  is_pinned <-! dict_get p "is_pinned" (JBool false) ;;
  inr (mkPost i title submolt author upvotes downvotes comment_count
              created_at content url is_pinned).

(** [Comment(id=c["id"], ..., post_id=post_id, parent_id=c.get("parent_id"))] *)
Definition build_comment (post_id : string) (c : json) : exn + Comment :=
  i <-! getitem c "id" ;;
  content <-! getitem c "content" ;;
  author <-! getitem c "author" ;;
  upvotes <-! getitem c "upvotes" ;;
  downvotes <-! getitem c "downvotes" ;;
  created_at <-! getitem c "created_at" ;;
  parent_id <-! dict_get c "parent_id" JNull ;;
  inr (mkComment i content author upvotes downvotes created_at post_id parent_id).

(** [for p in data.get("posts", []): posts.append(Post(...))] *)
Definition parse_posts (data : json) : exn + list Post :=
  v <-! dict_get data "posts" (JArr []) ;;
  items <-! py_iter v ;;
  for_each build_post items.

(** [for c in data.get("comments", []): comments.append(Comment(...))] *)
Definition parse_comments (post_id : string) (data : json) : exn + list Comment :=
  v <-! dict_get data "comments" (JArr []) ;;
  items <-! py_iter v ;;
  for_each (build_comment post_id) items.

Record Submolt : Type := mkSubmolt {
  submolt_ident : json;
  submolt_name : json;
  submolt_display_name : json;
  submolt_description : json;
  submolt_subscriber_count : json;
  submolt_created_at : json;
  submolt_last_activity_at : json;
  submolt_featured_at : json;
  submolt_created_by : json
}.

Record Agent : Type := mkAgent {
  agent_ident : json;
  agent_name : json;
  agent_post_count : json;
  agent_comment_count : json;
  agent_score : json
}.

(** The dict [{"total_submolts": ..., "total_posts": ..., "total_comments": ...}]
    that [get_stats] returns. *)
Record Stats : Type := mkStats {
  total_submolts : json;
  total_posts : json;
  total_comments : json
}.

(** [Submolt(id=s["id"], ..., created_by=s.get("created_by"))] *)
Definition build_submolt (s : json) : exn + Submolt :=
  i <-! getitem s "id" ;;
  name <-! getitem s "name" ;;
  display_name <-! getitem s "display_name" ;;
  description <-! getitem s "description" ;;
  subscriber_count <-! getitem s "subscriber_count" ;;
  created_at <-! getitem s "created_at" ;;
  last_activity_at <-! dict_get s "last_activity_at" JNull ;;
  featured_at <-! dict_get s "featured_at" JNull ;;
  created_by <-! dict_get s "created_by" JNull ;;
  inr (mkSubmolt i name display_name description subscriber_count created_at
                 last_activity_at featured_at created_by).

(** [Agent(id=a.get("id", ""), ..., score=a.get("score", 0))] *)
Definition build_agent (a : json) : exn + Agent :=
  i <-! dict_get a "id" (JStr "") ;;
  name <-! dict_get a "name" (JStr "unknown") ;;
  post_count <-! dict_get a "post_count" (JInt 0) ;;
  comment_count <-! dict_get a "comment_count" (JInt 0) ;;
  score <-! dict_get a "score" (JInt 0) ;;
  inr (mkAgent i name post_count comment_count score).

(** [for s in data.get("submolts", []): submolts.append(Submolt(...))] *)
Definition parse_submolts (data : json) : exn + list Submolt :=
  v <-! dict_get data "submolts" (JArr []) ;;
  items <-! py_iter v ;;
  for_each build_submolt items.

(** [for a in data.get("leaderboard", []): agents.append(Agent(...))] *)
Definition parse_agents (data : json) : exn + list Agent :=
  v <-! dict_get data "leaderboard" (JArr []) ;;
  items <-! py_iter v ;;
  for_each build_agent items.

(** The dict literal that [get_stats] returns. *)
Definition read_stats (data : json) : exn + Stats :=
  submolts <-! dict_get data "count" (JInt 0) ;;
  posts <-! dict_get data "total_posts" (JInt 0) ;;
  comments <-! dict_get data "total_comments" (JInt 0) ;;
  inr (mkStats submolts posts comments).

(** ** Pieces of the pagination loop *)

(** [not posts] *)
Definition is_empty {A} (l : list A) : bool :=
  match l with [] => true | _ => false end.

(** [l[:k]] *)
Definition slice_to {A} (l : list A) (k : Z) : list A :=
  let len := Z.of_nat (List.length l) in
  firstn (Z.to_nat (if k <? 0 then Z.max 0 (len + k) else k)) l.

(** [max_posts and len(all_posts) >= max_posts] as a condition. *)
Definition limit_reached {A} (max_posts : option Z) (all_posts : list A) : bool :=
  match max_posts with
  | Some n => negb (n =? 0) && (n <=? Z.of_nat (List.length all_posts))
  | None => false
  end.

(** The integer in [max_posts] where the slice is taken (it is then not [None]). *)
Definition limit_of (max_posts : option Z) : Z :=
  match max_posts with Some n => n | None => 0 end.

(** How one pass through the body of the [for] loop of [_request] ends. *)
Inductive loop_step : Type :=
| Continue (last_error : option exn) (r : option Response)   (* on to the next attempt *)
| Return (r : Response).                                     (* [return r] *)

(** How the [for] loop of [_request] is left. *)
Inductive loop_exit : Type :=
| LoopReturn (r : Response)                                  (* [return r] in the body *)
| LoopDone (last_error : option exn) (r : option Response).  (* the range is exhausted *)

Section Client.

(** The Python runtime the client runs in. *)
Variable py : Runtime.

(** The remote service: what the transport does with the [k]-th request. *)
Variable net : nat -> HttpRequest -> net_outcome.

(** Python's [format] of a decoded value, as an f-string interpolates it. *)
Variable fstr : json -> string.

Variable self : MoltbookAPI.

(** [self.client.request(method, url)] *)
Definition client_request (method url : string) : M Response :=
  fun w =>
    let req := mkRequest method url (client_headers self) in
    let w' := mkWorld (S (calls w)) (log w ++ [EvRequest req]) in
    match net (calls w) req with
    | Responded r => (Returns r, w')
    | TimedOut t => (Raises (TimeoutException t), w')
    | NetFailed t => (Raises (TransportError t), w')
    end.

(** The backoff of attempt [attempt]: [self.retry_delay * (attempt + 1)]. *)
Definition backoff (attempt : Z) : M pyfloat :=
  match float_mul py (retry_delay self) (attempt + 1) with
  | Some d => ret d
  | None => raise OverflowError
  end.

(** One pass through the body of the [for] loop of [_request]; [last_error]
    and [r] are the function's locals ([None] while unbound). *)
Definition attempt_body (method url : string) (attempt : Z)
    (last_error : option exn) (r : option Response) : M loop_step :=
  try_except
    (r' <- client_request method url ;;
     if is_retryable (status_code r') then
       wait <- backoff attempt ;;
       sleep py wait ;;;
       ret (Continue last_error (Some r'))
     else ret (Return r'))
    (fun e =>
       if is_timeout e then
         wait <- backoff attempt ;;
         sleep py wait ;;;
         ret (Continue (Some e) r)
       else raise e).

(** The [for attempt in range(self.max_retries)] loop of [_request]. *)
Fixpoint request_loop (method url : string) (attempts : list Z)
    (last_error : option exn) (r : option Response) : M loop_exit :=
  match attempts with
  | [] => ret (LoopDone last_error r)
  | attempt :: rest =>
      step <- attempt_body method url attempt last_error r ;;
      match step with
      | Continue last_error r => request_loop method url rest last_error r
      | Return r' => ret (LoopReturn r')
      end
  end.

(** [MoltbookAPI._request] *)
Definition _request (method url : string) : M Response :=
  ex <- request_loop method url (range (max_retries self)) None None ;;
  match ex with
  | LoopReturn r => ret r
  | LoopDone last_error r =>
      match last_error with
      | Some e => raise e
      | None =>
          match r with
          | Some r => ret r
          | None => raise (UnboundLocalError "r")
          end
      end
  end.

(** [r.raise_for_status()]: httpx raises unless the status is 2xx. *)
Definition raise_for_status (r : Response) : M unit :=
  if (200 <=? status_code r) && (status_code r <=? 299) then ret tt
  else raise (HTTPStatusError (status_code r)).

(** [r.json()]: the decoded body, or the decoding error (of either kind, see
    [JSONDecodeError]). *)
Definition json_of (r : Response) : M json :=
  match body r with
  | Some data => ret data
  | None => raise JSONDecodeError
  end.

(** ["&".join(f"{k}={v}" for k, v in params.items())] *)
Definition query (params : list (string * json)) : string :=
  String.concat "&" (map (fun kv => fst kv ++ "=" ++ fstr (snd kv)) params).

(** The [params] dict of [get_posts], in insertion order. *)
Definition posts_params (sort : string) (limit : Z) (before : json)
    : list (string * json) :=
  ([("sort", JStr sort); ("limit", JInt (Z.min limit 100))]
     ++ (if truthy before then [("before", before)] else []))%list.

Definition posts_url (sort : string) (limit : Z) (before : json) : string :=
  API_BASE ++ "/posts?" ++ query (posts_params sort limit before).

(** [MoltbookAPI.get_posts] *)
Definition get_posts (sort : string) (limit : Z) (before : json) : M PostsPage :=
  r <- _request "GET" (posts_url sort limit before) ;;
  if (status_code r =? 401) && negb (key_given (api_key self)) then
    ret (mkPage [] JNull)
  else
    raise_for_status r ;;;
    data <- json_of r ;;
    ps <- lift (parse_posts data) ;;
    nc <- lift (dict_get data "next_cursor" JNull) ;;
    ret (mkPage ps nc).

Definition comments_url (post_id sort : string) : string :=
  API_BASE ++ "/posts/" ++ post_id ++ "/comments?sort=" ++ sort.

(** [MoltbookAPI.get_post_comments] *)
Definition get_post_comments (post_id sort : string) : M (list Comment) :=
  r <- _request "GET" (comments_url post_id sort) ;;
  if (status_code r =? 401) && negb (key_given (api_key self)) then
    ret []
  else
    raise_for_status r ;;;
    data <- json_of r ;;
    lift (parse_comments post_id data).

(** The [while True] loop of [get_all_posts]; [all_posts] and [cursor] are
    its locals, [fuel] bounds the number of pages requested. *)
Fixpoint get_all_posts_loop (fuel : nat) (sort : string) (max_posts : option Z)
    (all_posts : list Post) (cursor : json) : M (list Post) :=
  match fuel with
  | O => out_of_fuel
  | S fuel' =>
      result <- get_posts sort 100 cursor ;;
      let posts := page_posts result in
      if is_empty posts then ret all_posts
      else
        let all_posts := (all_posts ++ posts)%list in
        if limit_reached max_posts all_posts then
          ret (slice_to all_posts (limit_of max_posts))
        else
          let cursor := next_cursor result in
          if negb (truthy cursor) then ret all_posts
          else
            slept (1 # 2) ;;;   (* time.sleep(0.5), a length every runtime sleeps *)
            get_all_posts_loop fuel' sort max_posts all_posts cursor
  end.

(** [MoltbookAPI.get_all_posts] *)
Definition get_all_posts (fuel : nat) (sort : string) (max_posts : option Z)
    : M (list Post) :=
  get_all_posts_loop fuel sort max_posts [] JNull.

(** [MoltbookAPI.get_submolts] *)
Definition get_submolts : M (list Submolt) :=
  r <- _request "GET" (API_BASE ++ "/submolts") ;;
  raise_for_status r ;;;
  data <- json_of r ;;
  lift (parse_submolts data).

(** [MoltbookAPI.get_leaderboard] *)
Definition get_leaderboard : M (list Agent) :=
  r <- _request "GET" (API_BASE ++ "/agents/leaderboard") ;;
  raise_for_status r ;;;
  data <- json_of r ;;
  lift (parse_agents data).

(** [MoltbookAPI.get_stats] *)
Definition get_stats : M Stats :=
  r <- _request "GET" (API_BASE ++ "/submolts") ;;
  raise_for_status r ;;;
  data <- json_of r ;;
  lift (read_stats data).

Definition submolt_feed_url (submolt_name sort : string) (limit : Z) (before : json)
    : string :=
  API_BASE ++ "/submolts/" ++ submolt_name ++ "/feed?"
    ++ query (posts_params sort limit before).

(** [MoltbookAPI.get_submolt_posts] *)
Definition get_submolt_posts (submolt_name sort : string) (limit : Z) (before : json)
    : M PostsPage :=
  r <- _request "GET" (submolt_feed_url submolt_name sort limit before) ;;
  if (status_code r =? 401) && negb (key_given (api_key self)) then
    ret (mkPage [] JNull)
  else
    raise_for_status r ;;;
    data <- json_of r ;;
    ps <- lift (parse_posts data) ;;
    nc <- lift (dict_get data "next_cursor" JNull) ;;
    ret (mkPage ps nc).

(** The [while True] loop of [get_all_submolt_posts]. *)
Fixpoint get_all_submolt_posts_loop (fuel : nat) (submolt_name sort : string)
    (max_posts : option Z) (all_posts : list Post) (cursor : json) : M (list Post) :=
  match fuel with
  | O => out_of_fuel
  | S fuel' =>
      result <- get_submolt_posts submolt_name sort 100 cursor ;;
      let posts := page_posts result in
      if is_empty posts then ret all_posts
      else
        let all_posts := (all_posts ++ posts)%list in
        if limit_reached max_posts all_posts then
          ret (slice_to all_posts (limit_of max_posts))
        else
          let cursor := next_cursor result in
          if negb (truthy cursor) then ret all_posts
          else
            slept (1 # 2) ;;;   (* time.sleep(0.5), a length every runtime sleeps *)
            get_all_submolt_posts_loop fuel' submolt_name sort max_posts
                                       all_posts cursor
  end.

(** [MoltbookAPI.get_all_submolt_posts] *)
Definition get_all_submolt_posts (fuel : nat) (submolt_name sort : string)
    (max_posts : option Z) : M (list Post) :=
  get_all_submolt_posts_loop fuel submolt_name sort max_posts [] JNull.

End Client.

(** ** Vocabulary of the statements *)

(** What the transport does with the [k]-th attempt of a call of [_request]
    entered in world [w]. *)
Definition attempt_outcome (net : nat -> HttpRequest -> net_outcome)
    (self : MoltbookAPI) (method url : string) (w : World) (k : nat) : net_outcome :=
  net (calls w + k)%nat (mkRequest method url (client_headers self)).

(** A response with a status of the retry set. *)
Definition retryable_response (o : net_outcome) : bool :=
  match o with
  | Responded r => is_retryable (status_code r)
  | _ => false
  end.

(** An attempt after which the loop goes on: a retryable status or a timeout. *)
Definition transient (o : net_outcome) : bool :=
  match o with
  | Responded r => is_retryable (status_code r)
  | TimedOut _ => true
  | NetFailed _ => false
  end.

(** What a transient attempt does to the locals [(last_error, r)]. *)
Definition note_outcome (st : option exn * option Response) (o : net_outcome)
    : option exn * option Response :=
  match o with
  | Responded r => (fst st, Some r)
  | TimedOut t => (Some (TimeoutException t), snd st)
  | NetFailed _ => st
  end.

(** What the backoff after attempt [k] comes to: the seconds slept, or the
    exception that the product or [time.sleep] raises. *)
Definition backoff_outcome (py : Runtime) (self : MoltbookAPI) (k : nat) : exn + Q :=
  match float_mul py (retry_delay self) (Z.of_nat k + 1) with
  | None => inl OverflowError
  | Some Infinite => inl OverflowError
  | Some (Finite q) =>
      match sleep_refuses py q with
      | Some f => inl (fault_exn f)
      | None => inr q
      end
  end.

(** The events of [m] transient attempts, the first of index [a], where the
    backoff after attempt [k] lasts [delay k]. *)
Definition retry_trace (self : MoltbookAPI) (method url : string) (delay : nat -> Q)
    (a : nat) (m : nat) : list Event :=
  flat_map (fun k => [EvRequest (mkRequest method url (client_headers self));
                      EvSleep (delay k)])
           (seq a m).

(** The world after an attempt, when a backoff of [q] seconds followed it. *)
Definition after_attempt (self : MoltbookAPI) (method url : string) (q : Q)
    (w : World) : World :=
  mkWorld (S (calls w))
          ((log w ++ [EvRequest (mkRequest method url (client_headers self))])
             ++ [EvSleep q]).

(** The world after a request on which no sleep followed. *)
Definition after_request (self : MoltbookAPI) (method url : string) (w : World) : World :=
  mkWorld (S (calls w))
          (log w ++ [EvRequest (mkRequest method url (client_headers self))]).

(** The outcomes of the first [m] attempts of a call entered in world [w]. *)
Definition attempts_of (net : nat -> HttpRequest -> net_outcome)
    (self : MoltbookAPI) (method url : string) (w : World) (m : nat)
    : list net_outcome :=
  map (attempt_outcome net self method url w) (seq 0 m).

(** The locals after [m] transient attempts. *)
Definition locals_after (net : nat -> HttpRequest -> net_outcome)
    (self : MoltbookAPI) (method url : string) (w : World) (m : nat)
    (st : option exn * option Response) : option exn * option Response :=
  fold_left note_outcome (attempts_of net self method url w m) st.

(** The tag of the last timeout among some attempts. *)
Fixpoint last_timeout (outs : list net_outcome) : option nat :=
  match outs with
  | [] => None
  | o :: rest =>
      match last_timeout rest with
      | Some t => Some t
      | None => match o with TimedOut t => Some t | _ => None end
      end
  end.

(** The delays slept, in order. *)
Fixpoint sleeps (evs : list Event) : list Q :=
  match evs with
  | [] => []
  | EvSleep d :: rest => d :: sleeps rest
  | EvRequest _ :: rest => sleeps rest
  end.

(** The requests sent, in order. *)
Fixpoint requests (evs : list Event) : list HttpRequest :=
  match evs with
  | [] => []
  | EvRequest q :: rest => q :: requests rest
  | EvSleep _ :: rest => requests rest
  end.

(** The world after the inter-page pause [time.sleep(0.5)]. *)
Definition after_pause (w : World) : World :=
  mkWorld (calls w) (log w ++ [EvSleep (1 # 2)]).

(** Pages served along a chain of cursors: [get_posts] is called with cursor
    [c] in world [w]; while the page comes with a cursor, the next page is
    asked for with it after the inter-page pause. *)
Inductive page_chain (py : Runtime) (net : nat -> HttpRequest -> net_outcome)
    (fstr : json -> string) (self : MoltbookAPI) (sort : string)
    : json -> World -> list PostsPage -> World -> Prop :=
| chain_last c w pg w' :
    get_posts py net fstr self sort 100 c w = (Returns pg, w') ->
    page_chain py net fstr self sort c w [pg] w'
| chain_next c w pg w1 pgs w' :
    get_posts py net fstr self sort 100 c w = (Returns pg, w1) ->
    truthy (next_cursor pg) = true ->
    page_chain py net fstr self sort (next_cursor pg) (after_pause w1) pgs w' ->
    page_chain py net fstr self sort c w (pg :: pgs) w'.

(** The records of some pages, in page order. *)
Definition all_records (pgs : list PostsPage) : list Post :=
  List.concat (map page_posts pgs).

(** The truncation to [max_posts], where it applies. *)
Definition truncated (max_posts : option Z) (all : list Post) : list Post :=
  if limit_reached max_posts all then slice_to all (limit_of max_posts) else all.

(** A page after which a collection without limit stops: no records, or no
    cursor. *)
Definition ends_feed (pg : PostsPage) : bool :=
  is_empty (page_posts pg) || negb (truthy (next_cursor pg)).

(** Whether the collector, holding [acc], asks for another page after [pg]. *)
Definition goes_on (max_posts : option Z) (acc : list Post) (pg : PostsPage) : bool :=
  negb (is_empty (page_posts pg))
  && negb (limit_reached max_posts (acc ++ page_posts pg))
  && truthy (next_cursor pg).

(** Whether the collector, holding [acc], stops exactly at the last of [pgs]. *)
Fixpoint halts (max_posts : option Z) (acc : list Post) (pgs : list PostsPage) : bool :=
  match pgs with
  | [] => false
  | pg :: rest =>
      if goes_on max_posts acc pg
      then halts max_posts (acc ++ page_posts pg) rest
      else is_empty rest
  end.

(** The events of a run from world [w] to world [w']. *)
Definition events_since (w w' : World) : list Event :=
  skipn (List.length (log w)) (log w').

(** The collector of both pagination loops, over the call that fetches a page. *)
Fixpoint paginate (fetch : json -> M PostsPage) (fuel : nat) (max_posts : option Z)
    (all_posts : list Post) (cursor : json) : M (list Post) :=
  match fuel with
  | O => out_of_fuel
  | S fuel' =>
      result <- fetch cursor ;;
      let posts := page_posts result in
      if is_empty posts then ret all_posts
      else
        let all_posts := (all_posts ++ posts)%list in
        if limit_reached max_posts all_posts then
          ret (slice_to all_posts (limit_of max_posts))
        else
          let cursor := next_cursor result in
          if negb (truthy cursor) then ret all_posts
          else
            slept (1 # 2) ;;;   (* time.sleep(0.5), a length every runtime sleeps *)
            paginate fetch fuel' max_posts all_posts cursor
  end.

(** Pages served to a fetching call along a chain of cursors. *)
Inductive fetched_chain (fetch : json -> M PostsPage)
    : json -> World -> list PostsPage -> World -> Prop :=
| fetched_last c w pg w' :
    fetch c w = (Returns pg, w') ->
    fetched_chain fetch c w [pg] w'
| fetched_next c w pg w1 pgs w' :
    fetch c w = (Returns pg, w1) ->
    truthy (next_cursor pg) = true ->
    fetched_chain fetch (next_cursor pg) (after_pause w1) pgs w' ->
    fetched_chain fetch c w (pg :: pgs) w'.

(** The first of some keys that a dict lacks. *)
Definition first_missing (keys : list string) (fields : list (string * json))
    : option string :=
  find (fun k => match assoc k fields with Some _ => false | None => true end) keys.

(** [d.get(k, default)] on the fields of a dict. *)
Definition field_or (fields : list (string * json)) (k : string) (default : json) : json :=
  match assoc k fields with Some v => v | None => default end.

(** The keys that [Post(...)] reads with [p[...]], in the order it reads them. *)
Definition required_post_keys : list string :=
  ["id"; "title"; "submolt"; "author"; "upvotes"; "downvotes"; "comment_count";
   "created_at"].

(** The keys that [Submolt(...)] reads with [s[...]], in the order it reads them. *)
Definition required_submolt_keys : list string :=
  ["id"; "name"; "display_name"; "description"; "subscriber_count"; "created_at"].

(** The keys that [Comment(...)] reads with [c[...]], in the order it reads them. *)
Definition required_comment_keys : list string :=
  ["id"; "content"; "author"; "upvotes"; "downvotes"; "created_at"].

(** The record [Post(...)] makes of a dict that has the required keys. *)
Definition post_of_fields (fields : list (string * json)) : Post :=
  mkPost (field_or fields "id" JNull) (field_or fields "title" JNull)
         (field_or fields "submolt" JNull) (field_or fields "author" JNull)
         (field_or fields "upvotes" JNull) (field_or fields "downvotes" JNull)
         (field_or fields "comment_count" JNull) (field_or fields "created_at" JNull)
         (field_or fields "content" JNull) (field_or fields "url" JNull)
         (field_or fields "is_pinned" (JBool false)).

(** The record [Submolt(...)] makes of a dict that has the required keys. *)
Definition submolt_of_fields (fields : list (string * json)) : Submolt :=
  mkSubmolt (field_or fields "id" JNull) (field_or fields "name" JNull)
            (field_or fields "display_name" JNull) (field_or fields "description" JNull)
            (field_or fields "subscriber_count" JNull)
            (field_or fields "created_at" JNull)
            (field_or fields "last_activity_at" JNull)
            (field_or fields "featured_at" JNull) (field_or fields "created_by" JNull).

(** The record [Comment(...)] makes of a dict that has the required keys. *)
Definition comment_of_fields (post_id : string) (fields : list (string * json)) : Comment :=
  mkComment (field_or fields "id" JNull) (field_or fields "content" JNull)
            (field_or fields "author" JNull) (field_or fields "upvotes" JNull)
            (field_or fields "downvotes" JNull) (field_or fields "created_at" JNull)
            post_id (field_or fields "parent_id" JNull).

(** The record [Agent(...)] makes of a dict. *)
Definition agent_of_fields (fields : list (string * json)) : Agent :=
  mkAgent (field_or fields "id" (JStr "")) (field_or fields "name" (JStr "unknown"))
          (field_or fields "post_count" (JInt 0))
          (field_or fields "comment_count" (JInt 0)) (field_or fields "score" (JInt 0)).

(** The counters [get_stats] makes of a dict. *)
Definition stats_of_fields (fields : list (string * json)) : Stats :=
  mkStats (field_or fields "count" (JInt 0)) (field_or fields "total_posts" (JInt 0))
          (field_or fields "total_comments" (JInt 0)).

(** What [get_posts] and [get_submolt_posts] do with the response. *)
Definition page_of_response (self : MoltbookAPI) (r : Response) : M PostsPage :=
  if (status_code r =? 401) && negb (key_given (api_key self)) then
    ret (mkPage [] JNull)
  else
    raise_for_status r ;;;
    data <- json_of r ;;
    ps <- lift (parse_posts data) ;;
    nc <- lift (dict_get data "next_cursor" JNull) ;;
    ret (mkPage ps nc).

Definition is_dict (v : json) : bool :=
  match v with JObj _ => true | _ => false end.

(** A 2xx status. *)
Definition is_success (status : Z) : bool :=
  (200 <=? status) && (status <=? 299).

(** ** Fixtures *)

Module Fixtures.

(** Agrees with Python's [format] on strings, integers, booleans and [None],
    the only values the fixtures interpolate. *)
Definition fstr (v : json) : string :=
  match v with
  | JStr s => s
  | JInt n => NilZero.string_of_int (Z.to_int n)
  | JBool true => "True"
  | JBool false => "False"
  | _ => "None"
  end.

(** A service that answers the [k]-th request with the [k]-th entry. *)
Definition script (l : list net_outcome) : nat -> HttpRequest -> net_outcome :=
  fun k _ => nth k l (NetFailed 0).

(** A runtime for the fixtures, whose delays are small integers: the
    products are exact, a negative length is refused with [ValueError] and
    one of 2^63 nanoseconds or more with [OverflowError]. *)
Definition plain_runtime : Runtime :=
  mkRuntime
    (fun d k => Some (Finite (d * inject_Z k)))
    (fun q =>
       if Qle_bool (9223372036854775808 # 1000000000) q then Some TooLarge
       else if Qle_bool q (- (9223372036854775808 # 1000000000)) then Some TooLarge
       else if Qle_bool 0 q then None
       else Some NegativeLength).

Definition w0 : World := mkWorld 0 [].

Definition busy : Response := mkResponse 503 None.
Definition limited : Response := mkResponse 429 None.
Definition denied : Response := mkResponse 401 None.

Definition default_api : MoltbookAPI := init None 3 2.

(** The body of one post, with an optional field left out. *)
Definition post_json (ident : string) : json :=
  JObj [("id", JStr ident); ("title", JStr ("title of " ++ ident));
        ("submolt", JObj [("name", JStr "general")]);
        ("author", JObj [("name", JStr "crab")]);
        ("upvotes", JInt 3); ("downvotes", JInt 0);
        ("comment_count", JInt 1); ("created_at", JStr "2026-01-31");
        ("url", JStr ("https://example.org/" ++ ident))].

Definition page_body (idents : list string) (cursor : json) : json :=
  JObj [("posts", JArr (map post_json idents)); ("next_cursor", cursor)].

Definition ok (data : json) : net_outcome := Responded (mkResponse 200 (Some data)).

(** A feed of five posts in three pages, addressed by cursor. *)
Definition feed : nat -> HttpRequest -> net_outcome :=
  fun _ q =>
    if String.eqb (req_url q) (posts_url fstr "new" 100 JNull)
    then ok (page_body ["p1"; "p2"] (JStr "p2"))
    else if String.eqb (req_url q) (posts_url fstr "new" 100 (JStr "p2"))
    then ok (page_body ["p3"; "p4"] (JStr "p4"))
    else if String.eqb (req_url q) (posts_url fstr "new" 100 (JStr "p4"))
    then ok (page_body ["p5"] JNull)
    else Responded (mkResponse 404 None).

(** The records and pages the client makes of that feed. *)
Definition feed_post (ident : string) : Post :=
  mkPost (JStr ident) (JStr ("title of " ++ ident))
         (JObj [("name", JStr "general")]) (JObj [("name", JStr "crab")])
         (JInt 3) (JInt 0) (JInt 1) (JStr "2026-01-31")
         JNull (JStr ("https://example.org/" ++ ident)) (JBool false).

Definition feed_pages : list PostsPage :=
  [ mkPage [feed_post "p1"; feed_post "p2"] (JStr "p2");
    mkPage [feed_post "p3"; feed_post "p4"] (JStr "p4");
    mkPage [feed_post "p5"] JNull ].

(** A feed whose first page is empty and still names a cursor. *)
Definition empty_feed : nat -> HttpRequest -> net_outcome :=
  fun _ _ => ok (page_body [] (JStr "p9")).

(** A comment whose body names another post than the one asked for. *)
Definition comment_json (ident : string) : json :=
  JObj [("id", JStr ident); ("content", JStr "nice shell");
        ("author", JObj [("name", JStr "crab")]);
        ("upvotes", JInt 1); ("downvotes", JInt 0);
        ("created_at", JStr "2026-01-31"); ("post_id", JStr "another-post")].

Definition comments_net : nat -> HttpRequest -> net_outcome :=
  fun _ _ => ok (JObj [("comments", JArr [comment_json "c1"; comment_json "c2"])]).

Definition fine : Response := mkResponse 200 (Some (JObj [])).
Definition missing : Response := mkResponse 404 None.

Definition keyed_api : MoltbookAPI := init (Some "k3y") 3 2.

(** A feed that always has another page. *)
Definition endless_feed : nat -> HttpRequest -> net_outcome :=
  fun _ _ => ok (page_body ["p1"] (JStr "p1")).

(** A page whose second post has no title. *)
Definition torn_page : net_outcome :=
  ok (JObj [("posts", JArr [post_json "p1"; JObj [("id", JStr "p2")]; post_json "p3"])]).

(** The feed of one community, in two pages. *)
Definition crab_feed : nat -> HttpRequest -> net_outcome :=
  fun _ q =>
    if String.eqb (req_url q) (submolt_feed_url fstr "crabs" "new" 100 JNull)
    then ok (page_body ["p1"; "p2"] (JStr "p2"))
    else if String.eqb (req_url q) (submolt_feed_url fstr "crabs" "new" 100 (JStr "p2"))
    then ok (page_body ["p3"] JNull)
    else Responded (mkResponse 404 None).

Definition crab_pages : list PostsPage :=
  [ mkPage [feed_post "p1"; feed_post "p2"] (JStr "p2");
    mkPage [feed_post "p3"] JNull ].

(** Two communities, the second without a description. *)
Definition whole_submolt : list (string * json) :=
  [("id", JStr "s1"); ("name", JStr "crabs"); ("display_name", JStr "Crabs");
   ("description", JStr "all about crabs"); ("subscriber_count", JInt 12);
   ("created_at", JStr "2026-01-30")].

Definition torn_submolt : list (string * json) :=
  [("id", JStr "s2"); ("name", JStr "shrimps"); ("display_name", JStr "Shrimps");
   ("subscriber_count", JInt 7); ("created_at", JStr "2026-01-30")].

Definition submolts_body (items : list json) : list (string * json) :=
  [("submolts", JArr items); ("count", JInt 2); ("total_posts", JInt 40)].

(** A leaderboard whose second entry has no fields. *)
Definition leaderboard_body : list (string * json) :=
  [("leaderboard", JArr [JObj [("id", JStr "a1"); ("name", JStr "pincer");
                               ("score", JInt 9)];
                         JObj []])].

End Fixtures.

(** * Properties *)

Open Scope list_scope.

(** ** The retry loop of [_request] *)

Section RequestFacts.

Variable py : Runtime.
Variable net : nat -> HttpRequest -> net_outcome.
Variable self : MoltbookAPI.
Variables method url : string.

Local Abbreviation req := (mkRequest method url (client_headers self)).
Local Abbreviation outcome_at := (attempt_outcome net self method url).
Local Abbreviation world_after := (after_attempt self method url).
Local Abbreviation world_sent := (after_request self method url).
Local Abbreviation locals_at := (locals_after net self method url).
Local Abbreviation backoff_of := (backoff_outcome py self).

(** The backoff and the sleep on it, as one step. *)
Lemma backoff_then_sleep {A} (a : nat) (k : M A) (w : World) :
  (wait <- backoff py self (Z.of_nat a) ;; sleep py wait ;;; k) w =
    match backoff_of a with
    | inr q => k (mkWorld (calls w) (log w ++ [EvSleep q]))
    | inl e => (Raises e, w)
    end.
Proof.
  unfold bind, backoff, backoff_outcome, sleep, slept, ret, raise.
  destruct (float_mul py (retry_delay self) (Z.of_nat a + 1)) as [[q|]|];
    try reflexivity.
  destruct (sleep_refuses py q); reflexivity.
Qed.

(** What a backoff raises is never a timeout. *)
Lemma backoff_error_kinds (a : nat) (e : exn) :
  backoff_of a = inl e -> e = ValueError \/ e = OverflowError.
Proof.
  unfold backoff_outcome.
  destruct (float_mul py (retry_delay self) (Z.of_nat a + 1)) as [[q|]|];
    try (intros H; injection H as <-; now right).
  destruct (sleep_refuses py q) as [[|]|]; intros H;
    try discriminate; injection H as <-; [now left | now right].
Qed.

(** What one pass through the loop body can do. *)
Lemma attempt_body_cases (a : nat) le rv w :
  attempt_body py net self method url (Z.of_nat a) le rv w =
    match outcome_at w 0 with
    | Responded r =>
        if is_retryable (status_code r) then
          match backoff_of a with
          | inr q => (Returns (Continue le (Some r)), world_after q w)
          | inl e => (Raises e, world_sent w)
          end
        else (Returns (Return r), world_sent w)
    | TimedOut t =>
        match backoff_of a with
        | inr q => (Returns (Continue (Some (TimeoutException t)) rv), world_after q w)
        | inl e => (Raises e, world_sent w)
        end
    | NetFailed t => (Raises (TransportError t), world_sent w)
    end.
Proof.
  unfold attempt_body, try_except, attempt_outcome, after_attempt, after_request.
  unfold bind at 1. unfold client_request. rewrite Nat.add_0_r.
  destruct (net (calls w) req) as [r|t|t]; cbn iota beta.
  - destruct (is_retryable (status_code r)); [|reflexivity].
    rewrite backoff_then_sleep.
    destruct (backoff_of a) as [e|q] eqn:Hb; [|reflexivity].
    destruct (backoff_error_kinds a e Hb) as [-> | ->]; reflexivity.
  - cbn [is_timeout]. rewrite backoff_then_sleep.
    destruct (backoff_of a); reflexivity.
  - reflexivity.
Qed.

Lemma outcome_at_after (q : Q) w k :
  outcome_at (world_after q w) k = outcome_at w (S k).
Proof.
  unfold attempt_outcome, after_attempt; simpl.
  now rewrite Nat.add_succ_r.
Qed.

Lemma outcomes_shift (q : Q) w m :
  map (outcome_at w) (seq 1 m) = map (outcome_at (world_after q w)) (seq 0 m).
Proof.
  rewrite <- seq_shift, map_map. apply map_ext.
  intros k. now rewrite outcome_at_after.
Qed.

(** When every attempt is transient and every backoff is slept, the loop
    runs the whole range. *)
Lemma request_loop_exhausted (delay : nat -> Q) (m : nat) :
  forall (a : nat) le rv w,
    (forall k, (k < m)%nat -> backoff_of (a + k) = inr (delay (a + k)%nat)) ->
    (forall k, (k < m)%nat -> transient (outcome_at w k) = true) ->
    request_loop py net self method url (map Z.of_nat (seq a m)) le rv w =
      (Returns (LoopDone (fst (locals_at w m (le, rv)))
                         (snd (locals_at w m (le, rv)))),
       mkWorld (calls w + m) (log w ++ retry_trace self method url delay a m)).
Proof.
  induction m as [|m IH]; intros a le rv w Hsleep Hall.
  - simpl. unfold ret, retry_trace. simpl.
    rewrite Nat.add_0_r, app_nil_r. now destruct w.
  - cbn [seq map request_loop]. unfold bind at 1.
    rewrite attempt_body_cases.
    pose proof (Hsleep 0%nat (Nat.lt_0_succ m)) as H0. rewrite Nat.add_0_r in H0.
    pose proof (Hall 0%nat (Nat.lt_0_succ m)) as Ht.
    assert (Hrest : forall le1 rv1,
      (le1, rv1) = note_outcome (le, rv) (outcome_at w 0) ->
      request_loop py net self method url (map Z.of_nat (seq (S a) m)) le1 rv1
        (world_after (delay a) w) =
      (Returns (LoopDone (fst (locals_at w (S m) (le, rv)))
                         (snd (locals_at w (S m) (le, rv)))),
       mkWorld (calls w + S m)
               (log w ++ retry_trace self method url delay a (S m)))).
    { intros le1 rv1 Hst. rewrite IH.
      - unfold locals_after, attempts_of. cbn [seq map fold_left].
        rewrite (outcomes_shift (delay a)), <- Hst.
        f_equal. unfold after_attempt, retry_trace. cbn [calls log seq flat_map].
        rewrite <- !app_assoc. simpl. f_equal. lia.
      - intros k Hk. replace (S a + k)%nat with (a + S k)%nat by lia.
        apply Hsleep. lia.
      - intros k Hk. rewrite outcome_at_after. apply Hall. lia. }
    rewrite H0.
    destruct (outcome_at w 0) as [r|t|t]; simpl in Ht.
    + rewrite Ht. now apply Hrest.
    + now apply Hrest.
    + discriminate.
Qed.

(** If the loop runs the whole range, every attempt was transient and every
    backoff was slept. *)
Lemma request_loop_done_inv (m : nat) :
  forall (a : nat) le rv w le' rv' w',
    request_loop py net self method url (map Z.of_nat (seq a m)) le rv w =
      (Returns (LoopDone le' rv'), w') ->
    (forall k, (k < m)%nat -> transient (outcome_at w k) = true) /\
    (le', rv') = locals_at w m (le, rv) /\
    calls w' = (calls w + m)%nat /\
    (forall k, (k < m)%nat -> exists q, backoff_of (a + k) = inr q).
Proof.
  induction m as [|m IH]; intros a le rv w le' rv' w' Hrun.
  - simpl in Hrun. unfold ret in Hrun. injection Hrun as <- <- <-.
    split; [intros k Hk; lia|]. split; [reflexivity|].
    split; [lia | intros k Hk; lia].
  - cbn [seq map request_loop] in Hrun. unfold bind at 1 in Hrun.
    rewrite attempt_body_cases in Hrun.
    assert (Hrest : forall q le1 rv1,
      backoff_of a = inr q ->
      transient (outcome_at w 0) = true ->
      (le1, rv1) = note_outcome (le, rv) (outcome_at w 0) ->
      request_loop py net self method url (map Z.of_nat (seq (S a) m)) le1 rv1
        (world_after q w) = (Returns (LoopDone le' rv'), w') ->
      (forall k, (k < S m)%nat -> transient (outcome_at w k) = true) /\
      (le', rv') = locals_at w (S m) (le, rv) /\
      calls w' = (calls w + S m)%nat /\
      (forall k, (k < S m)%nat -> exists q, backoff_of (a + k) = inr q)).
    { intros q le1 rv1 Hq Ht Hst Hrec. apply IH in Hrec.
      destruct Hrec as [Hall [Hloc [Hc Hb]]].
      split; [|split; [|split]].
      - intros [|k] Hk; [exact Ht|].
        rewrite <- (outcome_at_after q). apply Hall. lia.
      - unfold locals_after, attempts_of. cbn [seq map fold_left].
        rewrite (outcomes_shift q), <- Hst. exact Hloc.
      - cbn [after_attempt calls] in Hc. lia.
      - intros [|k] Hk; [rewrite Nat.add_0_r; now exists q|].
        replace (a + S k)%nat with (S a + k)%nat by lia. apply Hb. lia. }
    destruct (outcome_at w 0) as [r|t|t] eqn:E0.
    + destruct (is_retryable (status_code r)) eqn:Er; [|discriminate].
      destruct (backoff_of a) as [e|q] eqn:Hq; [discriminate|].
      eapply (Hrest q); [reflexivity | exact Er | reflexivity | exact Hrun].
    + destruct (backoff_of a) as [e|q] eqn:Hq; [discriminate|].
      eapply (Hrest q); [reflexivity | reflexivity | reflexivity | exact Hrun].
    + discriminate.
Qed.

(** The loop itself raises nothing but what a backoff or the transport
    raised and the handler let through. *)
Lemma request_loop_raises (m : nat) :
  forall (a : nat) le rv w e w',
    request_loop py net self method url (map Z.of_nat (seq a m)) le rv w = (Raises e, w') ->
    e = ValueError \/ e = OverflowError \/ exists t, e = TransportError t.
Proof.
  induction m as [|m IH]; intros a le rv w e w' Hrun.
  - discriminate.
  - cbn [seq map request_loop] in Hrun. unfold bind at 1 in Hrun.
    rewrite attempt_body_cases in Hrun.
    destruct (outcome_at w 0) as [r|t|t].
    + destruct (is_retryable (status_code r)); [|discriminate].
      destruct (backoff_of a) as [e0|q] eqn:Hq.
      * injection Hrun as <- _.
        destruct (backoff_error_kinds a e0 Hq); auto.
      * eapply IH; eassumption.
    + destruct (backoff_of a) as [e0|q] eqn:Hq.
      * injection Hrun as <- _.
        destruct (backoff_error_kinds a e0 Hq); auto.
      * eapply IH; eassumption.
    + injection Hrun as <- _. right; right; now exists t.
Qed.

Lemma request_loop_fuel_free (m : nat) :
  forall (a : nat) le rv w w',
    request_loop py net self method url (map Z.of_nat (seq a m)) le rv w <> (OutOfFuel, w').
Proof.
  induction m as [|m IH]; intros a le rv w w' Hrun.
  - discriminate.
  - cbn [seq map request_loop] in Hrun. unfold bind at 1 in Hrun.
    rewrite attempt_body_cases in Hrun.
    destruct (outcome_at w 0) as [r|t|t].
    + destruct (is_retryable (status_code r)); [|discriminate].
      destruct (backoff_of a); [discriminate|].
      eapply IH; eassumption.
    + destruct (backoff_of a); [discriminate|].
      eapply IH; eassumption.
    + discriminate.
Qed.

(** The captured error is the last timeout, if any attempt timed out. *)
Lemma fold_note_last_timeout (outs : list net_outcome) :
  forall st,
    fst (fold_left note_outcome outs st) =
      match last_timeout outs with
      | Some t => Some (TimeoutException t)
      | None => fst st
      end.
Proof.
  induction outs as [|o outs IH]; intros st; [reflexivity|].
  cbn [fold_left last_timeout]. rewrite IH.
  destruct (last_timeout outs); [reflexivity|].
  now destruct o.
Qed.

Lemma attempts_of_snoc w m :
  attempts_of net self method url w (S m) =
    (attempts_of net self method url w m ++ [outcome_at w m])%list.
Proof.
  unfold attempts_of. rewrite seq_S, map_app. reflexivity.
Qed.

Lemma locals_at_snoc w m st :
  locals_at w (S m) st = note_outcome (locals_at w m st) (outcome_at w m).
Proof.
  unfold locals_after. rewrite attempts_of_snoc, fold_left_app. reflexivity.
Qed.

Lemma last_timeout_none_iff (outs : list net_outcome) :
  last_timeout outs = None <-> Forall (fun o => forall t, o <> TimedOut t) outs.
Proof.
  induction outs as [|o outs IH]; simpl.
  - split; [constructor | reflexivity].
  - destruct (last_timeout outs) as [t|].
    + split; [discriminate|]. intros H. inversion H; subst.
      apply IH in H3. discriminate.
    + split.
      * intros H. constructor; [|now apply IH].
        intros t ->. discriminate.
      * intros H. inversion H; subst. destruct o; try reflexivity.
        now destruct (H2 tag).
Qed.



Lemma retryable_is_transient (o : net_outcome) :
  retryable_response o = true -> transient o = true.
Proof. destruct o; simpl; auto; discriminate. Qed.







(** The loop exits of [_request] that raise a timeout. *)
Lemma request_timeout_from_loop (w : World) (t : nat) :
  fst (_request py net self method url w) = Raises (TimeoutException t) <->
  exists rv w',
    request_loop py net self method url (range (max_retries self)) None None w =
      (Returns (LoopDone (Some (TimeoutException t)) rv), w').
Proof.
  unfold _request, bind, range.
  destruct (request_loop py net self method url
              (map Z.of_nat (seq 0 (Z.to_nat (max_retries self)))) None None w)
    as [[ex|e|] w1] eqn:Hrun.
  - destruct ex as [r|le rv]; simpl.
    + split; [discriminate|]. intros [rv [w' H]]. discriminate.
    + destruct le as [e|].
      * simpl. split.
        -- intros H. inversion H; subst. now exists rv, w1.
        -- intros [rv' [w' H]]. now inversion H.
      * split.
        -- destruct rv; simpl; discriminate.
        -- intros [rv' [w' H]]. discriminate.
  - simpl. split.
    + intros H. inversion H; subst.
      apply request_loop_raises in Hrun. destruct Hrun as [H1|[H1|[t' H1]]]; discriminate.
    + intros [rv' [w' H]]. discriminate.
  - exfalso. eapply request_loop_fuel_free; eassumption.
Qed.

(** The seconds of the backoff after attempt [k], where it is slept. *)
Lemma backoffs_as_function (n : nat) :
  (forall k, (k < n)%nat -> exists q, backoff_of k = inr q) ->
  exists delay : nat -> Q,
    forall k, (k < n)%nat -> backoff_of (0 + k) = inr (delay (0 + k)%nat).
Proof.
  intros Hsleep.
  exists (fun k => match backoff_of k with inr q => q | inl _ => 0%Q end).
  intros k Hk. cbn [Nat.add]. destruct (Hsleep k Hk) as [q Hq]. now rewrite Hq.
Qed.

(** Which runs raise a timeout, and which one. *)
Lemma timeout_raised_iff (w : World) (t : nat) :
  (forall k, (k < Z.to_nat (max_retries self))%nat -> exists q, backoff_of k = inr q) ->
  fst (_request py net self method url w) = Raises (TimeoutException t) <->
  (forall k, (k < Z.to_nat (max_retries self))%nat ->
             transient (outcome_at w k) = true) /\
  last_timeout (attempts_of net self method url w (Z.to_nat (max_retries self))) = Some t.
Proof.
  intros Hsleep. rewrite request_timeout_from_loop. unfold range. split.
  - intros [rv [w' Hrun]].
    apply request_loop_done_inv in Hrun. destruct Hrun as [Hall [Hst _]].
    split; [exact Hall|].
    apply (f_equal fst) in Hst. simpl in Hst.
    unfold locals_after in Hst. rewrite fold_note_last_timeout in Hst.
    destruct (last_timeout _) as [t'|]; simpl in Hst; [|discriminate].
    now inversion Hst.
  - intros [Hall Hlast].
    destruct (backoffs_as_function _ Hsleep) as [delay Hdelay].
    rewrite (request_loop_exhausted delay _ 0 None None w Hdelay Hall).
    unfold locals_after. rewrite fold_note_last_timeout, Hlast.
    eexists. eexists. reflexivity.
Qed.

(** When every attempt times out, the timeout of the last attempt is raised. *)
Corollary request_all_timeouts (w : World) (m : nat) (t : nat) :
  (forall k, (k <= m)%nat -> exists q, backoff_of k = inr q) ->
  Z.to_nat (max_retries self) = S m ->
  (forall k, (k <= m)%nat -> exists t', outcome_at w k = TimedOut t') ->
  outcome_at w m = TimedOut t ->
  fst (_request py net self method url w) = Raises (TimeoutException t).
Proof.
  intros Hsleep En Hall Hm. apply timeout_raised_iff.
  - rewrite En. intros k Hk. apply Hsleep. lia.
  - rewrite En. split.
    + intros k Hk. destruct (Hall k) as [t' ->]; [lia | reflexivity].
    + rewrite attempts_of_snoc.
      generalize (attempts_of net self method url w m). intros l.
      induction l as [|o l IH]; simpl.
      * now rewrite Hm.
      * now rewrite IH.
Qed.

Lemma last_timeout_after (l1 l2 : list net_outcome) (t : nat) :
  last_timeout l2 = None -> last_timeout (l1 ++ TimedOut t :: l2) = Some t.
Proof.
  intros Hl2. induction l1 as [|o l1 IH]; simpl.
  - now rewrite Hl2.
  - now rewrite IH.
Qed.

Lemma attempts_of_split w (j n : nat) :
  (j < n)%nat ->
  attempts_of net self method url w n =
    attempts_of net self method url w j
      ++ outcome_at w j :: map (outcome_at w) (seq (S j) (n - S j)).
Proof.
  intros Hj. unfold attempts_of.
  replace n with (j + S (n - S j))%nat at 1 by lia.
  rewrite seq_app, map_app. reflexivity.
Qed.

(** C2, as the code has it. When every backoff takes place, [_request] raises
    a transport timeout exactly when the loop runs out of attempts (every
    attempt timed out or was answered with a status of the retry set) and
    some attempt timed out; the timeout raised is that of the last attempt
    that timed out.  So it is raised too when the attempts after that one
    were all answered with a status of the retry set: the last response is
    not returned then. *)
Theorem request_raises_timeout_iff (w : World) (t : nat) :
  (forall k, (k < Z.to_nat (max_retries self))%nat -> exists q, backoff_of k = inr q) ->
  (fst (_request py net self method url w) = Raises (TimeoutException t) <->
   (forall k, (k < Z.to_nat (max_retries self))%nat ->
              transient (outcome_at w k) = true) /\
   last_timeout (attempts_of net self method url w (Z.to_nat (max_retries self)))
     = Some t) /\
  (forall j,
     (j < Z.to_nat (max_retries self))%nat ->
     (forall k, (k < j)%nat -> transient (outcome_at w k) = true) ->
     outcome_at w j = TimedOut t ->
     (forall k, (j < k < Z.to_nat (max_retries self))%nat ->
                retryable_response (outcome_at w k) = true) ->
     fst (_request py net self method url w) = Raises (TimeoutException t)).
Proof.
  intros Hsleep. split; [now apply timeout_raised_iff|].
  intros j Hj Hbefore Hat Hafter.
  apply timeout_raised_iff; [exact Hsleep|]. split.
  - intros k Hk. destruct (Nat.lt_trichotomy k j) as [Hlt|[->|Hgt]].
    + now apply Hbefore.
    + now rewrite Hat.
    + apply retryable_is_transient, Hafter. lia.
  - rewrite (attempts_of_split w j _ Hj), Hat.
    apply last_timeout_after. apply last_timeout_none_iff.
    apply Forall_forall. intros o Hin.
    apply in_map_iff in Hin. destruct Hin as [k [<- Hk]].
    apply in_seq in Hk. intros t' Ht'.
    assert (Hr : retryable_response (outcome_at w k) = true) by (apply Hafter; lia).
    rewrite Ht' in Hr. discriminate.
Qed.

(** C8. With [max_retries >= 1], when the loop of [_request] runs out of
    attempts with no timeout captured, the local [r] is bound, to the response
    of the last attempt, so the final [return r] never meets an unbound name;
    with [max_retries <= 0] no attempt is made, [r] is unbound and the call
    raises [UnboundLocalError] instead of returning a response. *)
Theorem fallback_return_is_bound (w : World) :
  (1 <= max_retries self ->
   (forall rv w',
      request_loop py net self method url (range (max_retries self)) None None w =
        (Returns (LoopDone None rv), w') ->
      exists r, rv = Some r /\
                outcome_at w (Z.to_nat (max_retries self) - 1) = Responded r) /\
   (forall v, fst (_request py net self method url w) <> Raises (UnboundLocalError v)))
  /\
  (max_retries self <= 0 ->
   _request py net self method url w = (Raises (UnboundLocalError "r"), w)).
Proof.
  split.
  - intros Hn.
    assert (Hbound : forall rv w',
      request_loop py net self method url (range (max_retries self)) None None w =
        (Returns (LoopDone None rv), w') ->
      exists r, rv = Some r /\
                outcome_at w (Z.to_nat (max_retries self) - 1) = Responded r).
    { intros rv w' Hrun. unfold range in Hrun.
      destruct (Z.to_nat (max_retries self)) as [|m] eqn:En; [lia|].
      apply request_loop_done_inv in Hrun. destruct Hrun as [Hall [Hst _]].
      rewrite locals_at_snoc in Hst.
      pose proof (Hall m (Nat.lt_succ_diag_r m)) as Hlast.
      replace (S m - 1)%nat with m by lia.
      destruct (outcome_at w m) as [r|t|t]; simpl in *; try discriminate.
      exists r. now inversion Hst. }
    split; [exact Hbound|].
    intros v Hraise. unfold _request, bind in Hraise.
    destruct (request_loop py net self method url (range (max_retries self)) None None w)
      as [[ex|e|] w1] eqn:Hrun; simpl in Hraise.
    + destruct ex as [r|le rv]; [discriminate|].
      destruct le as [e|].
      * simpl in Hraise. inversion Hraise; subst.
        unfold range in Hrun. apply request_loop_done_inv in Hrun.
        destruct Hrun as [_ [Hst _]]. apply (f_equal fst) in Hst. simpl in Hst.
        unfold locals_after in Hst. rewrite fold_note_last_timeout in Hst.
        destruct (last_timeout _); discriminate.
      * destruct (Hbound rv w1 eq_refl) as [r [-> _]]. discriminate.
    + inversion Hraise; subst. unfold range in Hrun.
      apply request_loop_raises in Hrun. destruct Hrun as [H|[H|[t H]]]; discriminate.
    + discriminate.
  - intros Hn. unfold _request, bind, range.
    replace (Z.to_nat (max_retries self)) with 0%nat by lia.
    reflexivity.
Qed.

End RequestFacts.

(** ** The pagination loop of [get_all_posts] *)

Section PaginationFacts.

Variable py : Runtime.
Variable net : nat -> HttpRequest -> net_outcome.
Variable fstr : json -> string.
Variable self : MoltbookAPI.
Variable sort : string.

Local Abbreviation fetch := (get_posts py net fstr self sort 100).
Local Abbreviation loop := (fun fuel => get_all_posts_loop py net fstr self fuel sort).
Local Abbreviation chain := (page_chain py net fstr self sort).

(** One turn of the loop, once the page is there. *)
Lemma collect_step fuel mp acc c w pg w1 :
  fetch c w = (Returns pg, w1) ->
  loop (S fuel) mp acc c w =
    if is_empty (page_posts pg) then (Returns acc, w1)
    else if limit_reached mp (acc ++ page_posts pg)
    then (Returns (slice_to (acc ++ page_posts pg) (limit_of mp)), w1)
    else if negb (truthy (next_cursor pg)) then (Returns (acc ++ page_posts pg), w1)
    else loop fuel mp (acc ++ page_posts pg) (next_cursor pg) (after_pause w1).
Proof.
  intros Hpg. cbn [get_all_posts_loop]. unfold bind at 1. rewrite Hpg.
  destruct (is_empty (page_posts pg)); [reflexivity|].
  destruct (limit_reached mp (acc ++ page_posts pg)); [reflexivity|].
  destruct (negb (truthy (next_cursor pg))); reflexivity.
Qed.

Lemma collect_step_failed fuel mp acc c w (o : Outcome PostsPage) w1 :
  fetch c w = (o, w1) ->
  (forall pg, o <> Returns pg) ->
  forall res w', loop (S fuel) mp acc c w <> (Returns res, w').
Proof.
  intros Hpg Hno res w'. cbn [get_all_posts_loop]. unfold bind at 1. rewrite Hpg.
  destruct o as [pg|e|]; [now destruct (Hno pg) | discriminate | discriminate].
Qed.

Lemma slice_to_nil {A} (k : Z) : slice_to (@nil A) k = [].
Proof. unfold slice_to. now rewrite firstn_nil. Qed.

Lemma slice_to_nonneg {A} (l : list A) (k : Z) :
  0 <= k -> slice_to l k = firstn (Z.to_nat k) l.
Proof.
  intros Hk. unfold slice_to.
  destruct (k <? 0) eqn:E; [apply Z.ltb_lt in E; lia | reflexivity].
Qed.

Lemma is_empty_true {A} (l : list A) : is_empty l = true <-> l = [].
Proof. destruct l; simpl; split; congruence. Qed.

Lemma all_records_cons pg pgs :
  all_records (pg :: pgs) = (page_posts pg ++ all_records pgs)%list.
Proof. reflexivity. Qed.

(** What a halting chain of pages makes the loop return. *)
Lemma loop_of_chain c w pgs w' :
  chain c w pgs w' ->
  forall mp acc,
    halts mp acc pgs = true ->
    limit_reached mp acc = false \/ acc = [] ->
    loop (List.length pgs) mp acc c w =
      (Returns (truncated mp (acc ++ all_records pgs)), w').
Proof.
  induction 1 as [c w pg w' Hpg | c w pg w1 pgs w' Hpg Hcur Hch IH];
    intros mp acc Hhalt Hinv.
  - cbn [List.length]. rewrite (collect_step _ _ _ _ _ _ _ Hpg).
    cbn [halts] in Hhalt. unfold goes_on in Hhalt.
    unfold all_records; cbn [map List.concat]. rewrite app_nil_r.
    destruct (is_empty (page_posts pg)) eqn:Ee.
    + apply is_empty_true in Ee. rewrite Ee, app_nil_r.
      unfold truncated. destruct Hinv as [-> | ->]; [reflexivity|].
      now rewrite slice_to_nil; destruct (limit_reached mp []).
    + unfold truncated.
      destruct (limit_reached mp (acc ++ page_posts pg)); [reflexivity|].
      simpl in Hhalt.
      destruct (truthy (next_cursor pg)); [discriminate | reflexivity].
  - cbn [List.length]. rewrite (collect_step _ _ _ _ _ _ _ Hpg).
    cbn [halts] in Hhalt. unfold goes_on in Hhalt.
    assert (Hrest : is_empty pgs = false) by (inversion Hch; reflexivity).
    destruct (is_empty (page_posts pg)) eqn:Ee;
      [simpl in Hhalt; congruence|].
    destruct (limit_reached mp (acc ++ page_posts pg)) eqn:El;
      [simpl in Hhalt; congruence|].
    rewrite Hcur in *. simpl in Hhalt. simpl negb. cbv iota.
    rewrite all_records_cons, app_assoc.
    apply IH; [exact Hhalt | now left].
Qed.

(** Every returning run of the loop is a halting chain of pages. *)
Lemma chain_of_loop fuel :
  forall mp acc c w res w',
    loop fuel mp acc c w = (Returns res, w') ->
    exists pgs,
      chain c w pgs w' /\ halts mp acc pgs = true /\
      (List.length pgs <= fuel)%nat /\
      (limit_reached mp acc = false \/ acc = [] ->
       res = truncated mp (acc ++ all_records pgs)).
Proof.
  induction fuel as [|fuel IH]; intros mp acc c w res w' Hrun; [discriminate|].
  destruct (fetch c w) as [o w1] eqn:Hpg.
  destruct o as [pg|e|];
    [| exfalso; eapply collect_step_failed; [exact Hpg | discriminate | exact Hrun]
     | exfalso; eapply collect_step_failed; [exact Hpg | discriminate | exact Hrun]].
  destruct (goes_on mp acc pg) eqn:Hgo.
  - rewrite (collect_step _ _ _ _ _ _ _ Hpg) in Hrun.
    pose proof Hgo as Hgo'. unfold goes_on in Hgo.
    apply andb_prop in Hgo. destruct Hgo as [Hgo Hcur].
    apply andb_prop in Hgo. destruct Hgo as [Hne Hlim].
    apply negb_true_iff in Hne, Hlim.
    rewrite Hne, Hlim, Hcur in Hrun. simpl in Hrun.
    apply IH in Hrun. destruct Hrun as [pgs [Hch [Hhalt [Hlen Hres]]]].
    exists (pg :: pgs). split; [|split; [|split]].
    + eapply chain_next; eassumption.
    + cbn [halts]. now rewrite Hgo'.
    + simpl. lia.
    + intros _. rewrite all_records_cons, app_assoc. apply Hres. now left.
  - assert (Hstop : loop (S fuel) mp acc c w = loop 1%nat mp acc c w).
    { rewrite !(collect_step _ _ _ _ _ _ _ Hpg). unfold goes_on in Hgo.
      destruct (is_empty (page_posts pg)); [reflexivity|].
      destruct (limit_reached mp (acc ++ page_posts pg)); [reflexivity|].
      destruct (truthy (next_cursor pg)); [discriminate | reflexivity]. }
    rewrite Hstop in Hrun.
    assert (Hw : w' = w1).
    { rewrite (collect_step _ _ _ _ _ _ _ Hpg) in Hrun. unfold goes_on in Hgo.
      destruct (is_empty (page_posts pg)); [now injection Hrun|].
      destruct (limit_reached mp (acc ++ page_posts pg)); [now injection Hrun|].
      destruct (truthy (next_cursor pg)); [discriminate | now injection Hrun]. }
    subst w'.
    assert (Hone : chain c w [pg] w1) by now apply chain_last.
    assert (Hh : halts mp acc [pg] = true) by (cbn [halts]; now rewrite Hgo).
    exists [pg]. split; [exact Hone | split; [exact Hh | split; [simpl; lia|]]].
    intros Hinv.
    pose proof (loop_of_chain _ _ _ _ Hone mp acc Hh Hinv) as Hl.
    cbn [List.length] in Hl. rewrite Hl in Hrun. now injection Hrun.
Qed.

(** C4. A run of [get_all_posts] returns [res] exactly when the pages that
    [get_posts] fetched, one after the other along the cursors, form a chain
    at whose last page the collector stops, and [res] is the concatenation
    of their record lists in page order, cut at [max_posts] where that limit
    was reached: every record of every fetched page occurs once, in order. *)
Theorem collected_is_concatenation (mp : option Z) (w w' : World) (res : list Post) :
  (exists fuel, get_all_posts py net fstr self fuel sort mp w = (Returns res, w')) <->
  (exists pgs,
     chain JNull w pgs w' /\ halts mp [] pgs = true /\
     res = truncated mp (all_records pgs)).
Proof.
  unfold get_all_posts. split.
  - intros [fuel Hrun]. apply chain_of_loop in Hrun.
    destruct Hrun as [pgs [Hch [Hhalt [_ Hres]]]].
    exists pgs. split; [exact Hch | split; [exact Hhalt|]].
    apply Hres. now right.
  - intros [pgs [Hch [Hhalt ->]]]. exists (List.length pgs).
    apply (loop_of_chain _ _ _ _ Hch mp [] Hhalt). now right.
Qed.

Lemma limit_reached_some {A} (N : Z) (l : list A) :
  1 <= N -> limit_reached (Some N) l = (N <=? Z.of_nat (List.length l)).
Proof.
  intros HN. unfold limit_reached.
  destruct (N =? 0) eqn:E; [apply Z.eqb_eq in E; lia | reflexivity].
Qed.

Lemma firstn_all_app {A} (n : nat) (l1 l2 : list A) :
  (List.length l1 >= n)%nat -> firstn n (l1 ++ l2) = firstn n l1.
Proof.
  intros Hlen. rewrite firstn_app.
  replace (n - List.length l1)%nat with 0%nat by lia.
  simpl. apply app_nil_r.
Qed.

(** The limited collector along a chain of non-empty pages. *)
Lemma limit_prefix_of_chain c w pgs w' :
  chain c w pgs w' ->
  forall (N : Z) acc,
    Forall (fun pg => page_posts pg <> []) pgs ->
    Z.of_nat (List.length acc) < N ->
    N <= Z.of_nat (List.length (acc ++ all_records pgs)) ->
    exists k w'',
      (1 <= k <= List.length pgs)%nat /\
      chain c w (firstn k pgs) w'' /\
      loop k (Some N) acc c w =
        (Returns (firstn (Z.to_nat N) (acc ++ all_records pgs)), w'') /\
      Z.of_nat (List.length (acc ++ all_records (firstn (k - 1) pgs))) < N /\
      N <= Z.of_nat (List.length (acc ++ all_records (firstn k pgs))).
Proof.
  induction 1 as [c w pg w' Hpg | c w pg w1 pgs w' Hpg Hcur Hch IH];
    intros N acc Hne Hlt Hle.
  - exists 1%nat, w'. inversion Hne as [|? ? Hne1 _]; subst.
    unfold all_records in *; cbn [map List.concat firstn Nat.sub] in *.
    rewrite app_nil_r in *.
    split; [simpl; lia|]. split; [now apply chain_last|]. split; [|split].
    + rewrite (collect_step _ _ _ _ _ _ _ Hpg).
      destruct (is_empty (page_posts pg)) eqn:Ee;
        [apply is_empty_true in Ee; contradiction|].
      rewrite limit_reached_some by lia.
      destruct (N <=? _) eqn:El; [|apply Z.leb_gt in El; lia].
      simpl limit_of. now rewrite slice_to_nonneg by lia.
    + simpl. now rewrite app_nil_r.
    + exact Hle.
  - inversion Hne as [|? ? Hne1 Hne']; subst.
    destruct (N <=? Z.of_nat (List.length (acc ++ page_posts pg))) eqn:El.
    + apply Z.leb_le in El. exists 1%nat, w1.
      split; [simpl; lia|]. cbn [firstn Nat.sub].
      split; [now apply chain_last|]. split; [|split].
      * rewrite (collect_step _ _ _ _ _ _ _ Hpg).
        destruct (is_empty (page_posts pg)) eqn:Ee;
          [apply is_empty_true in Ee; contradiction|].
        rewrite limit_reached_some by lia.
        destruct (N <=? _) eqn:El'; [|apply Z.leb_gt in El'; lia].
        simpl limit_of. rewrite slice_to_nonneg by lia.
        rewrite all_records_cons, app_assoc.
        rewrite (firstn_all_app _ (acc ++ page_posts pg)) by lia. reflexivity.
      * unfold all_records; simpl. now rewrite app_nil_r.
      * unfold all_records; simpl. now rewrite app_nil_r.
    + apply Z.leb_gt in El.
      rewrite all_records_cons, app_assoc in Hle.
      destruct (IH N (acc ++ page_posts pg) Hne' El Hle)
        as [k [w'' [Hk [Hchk [Hrun [Hprev Hnow]]]]]].
      exists (S k), w''. split; [simpl; lia|].
      cbn [firstn]. split; [eapply chain_next; eassumption|]. split; [|split].
      * rewrite (collect_step _ _ _ _ _ _ _ Hpg).
        destruct (is_empty (page_posts pg)) eqn:Ee;
          [apply is_empty_true in Ee; contradiction|].
        rewrite limit_reached_some by lia.
        destruct (N <=? _) eqn:El'; [apply Z.leb_le in El'; lia|].
        rewrite Hcur. simpl negb. cbv iota.
        rewrite Hrun, all_records_cons, app_assoc. reflexivity.
      * destruct k as [|k]; [lia|].
        replace (S (S k) - 1)%nat with (S k) by lia. cbn [firstn].
        rewrite all_records_cons, app_assoc.
        replace (S k - 1)%nat with k in Hprev by lia. exact Hprev.
      * rewrite all_records_cons, app_assoc. exact Hnow.
Qed.

(** C3. With [max_posts = N >= 1] and at least [N] records on the pages the
    service has along the cursors, [get_all_posts] returns exactly the first
    [N] of them: it fetches pages up to the first one with which the
    accumulator reaches [N] and no further, and cuts that last page. *)
Theorem limit_returns_exactly_n (N : Z) (pgs : list PostsPage) (w w' : World) :
  1 <= N ->
  chain JNull w pgs w' ->
  Forall (fun pg => page_posts pg <> []) pgs ->
  N <= Z.of_nat (List.length (all_records pgs)) ->
  exists k w'',
    (1 <= k <= List.length pgs)%nat /\
    chain JNull w (firstn k pgs) w'' /\
    get_all_posts py net fstr self k sort (Some N) w =
      (Returns (firstn (Z.to_nat N) (all_records pgs)), w'') /\
    Z.of_nat (List.length (firstn (Z.to_nat N) (all_records pgs))) = N /\
    firstn (Z.to_nat N) (all_records pgs) =
      firstn (Z.to_nat N) (all_records (firstn k pgs)) /\
    Z.of_nat (List.length (all_records (firstn (k - 1) pgs))) < N /\
    N <= Z.of_nat (List.length (all_records (firstn k pgs))).
Proof.
  intros HN Hch Hne Hle.
  destruct (limit_prefix_of_chain _ _ _ _ Hch N [] Hne) as
    [k [w'' [Hk [Hchk [Hrun [Hprev Hnow]]]]]]; [simpl; lia | exact Hle |].
  simpl in Hrun, Hprev, Hnow.
  exists k, w''. split; [exact Hk|]. split; [exact Hchk|].
  split; [exact Hrun|]. split; [|split; [|split; assumption]].
  - rewrite length_firstn. lia.
  - rewrite <- (firstn_skipn k pgs) at 1.
    unfold all_records. rewrite map_app, concat_app.
    apply firstn_all_app. unfold all_records in Hnow. lia.
Qed.

(** C6. A page without records ends the collection at once: the loop returns
    what it holds in the world in which the page arrived, whatever cursor the
    page names; so an empty first page gives the empty list. *)
Theorem empty_page_stops (fuel : nat) (mp : option Z) (acc : list Post)
    (c : json) (w : World) (pg : PostsPage) (w' : World) :
  fetch c w = (Returns pg, w') ->
  page_posts pg = [] ->
  loop (S fuel) mp acc c w = (Returns acc, w') /\
  (c = JNull ->
   get_all_posts py net fstr self (S fuel) sort mp w = (Returns [], w')).
Proof.
  intros Hpg Hempty.
  assert (Hstep : forall acc', loop (S fuel) mp acc' c w = (Returns acc', w')).
  { intros acc'. rewrite (collect_step _ _ _ _ _ _ _ Hpg), Hempty. reflexivity. }
  split; [apply Hstep|]. intros ->. apply Hstep.
Qed.

(** C7. After a page with records and no cursor the loop stops: it returns
    the accumulator with the page's records appended (cut at [max_posts] if
    that is reached) in the world in which the page arrived, so no further
    request is sent. *)
Theorem absent_cursor_stops (fuel : nat) (mp : option Z) (acc : list Post)
    (c : json) (w : World) (pg : PostsPage) (w' : World) :
  fetch c w = (Returns pg, w') ->
  page_posts pg <> [] ->
  next_cursor pg = JNull ->
  loop (S fuel) mp acc c w = (Returns (truncated mp (acc ++ page_posts pg)), w') /\
  (limit_reached mp (acc ++ page_posts pg) = false ->
   loop (S fuel) mp acc c w = (Returns (acc ++ page_posts pg), w')).
Proof.
  intros Hpg Hne Hcur.
  assert (Hstep : loop (S fuel) mp acc c w =
                  (Returns (truncated mp (acc ++ page_posts pg)), w')).
  { rewrite (collect_step _ _ _ _ _ _ _ Hpg), Hcur. unfold truncated.
    destruct (is_empty (page_posts pg)) eqn:Ee;
      [apply is_empty_true in Ee; contradiction|].
    destruct (limit_reached mp (acc ++ page_posts pg)); reflexivity. }
  split; [exact Hstep|].
  intros Hlim. rewrite Hstep. unfold truncated. now rewrite Hlim.
Qed.

Lemma limit_zero_is_none (fuel : nat) :
  forall acc c w, loop fuel (Some 0) acc c w = loop fuel None acc c w.
Proof.
  induction fuel as [|fuel IH]; intros acc c w; [reflexivity|].
  cbn [get_all_posts_loop]. unfold bind at 1 3.
  destruct (fetch c w) as [[pg|e|] w1]; try reflexivity.
  destruct (is_empty (page_posts pg)); [reflexivity|].
  cbn [limit_reached Z.eqb negb andb].
  destruct (negb (truthy (next_cursor pg))); [reflexivity|].
  unfold bind, slept. apply IH.
Qed.

Lemma halts_without_limit (acc : list Post) (front : list PostsPage) (final : PostsPage) :
  Forall (fun pg => ends_feed pg = false) front ->
  ends_feed final = true ->
  halts (Some 0) acc (front ++ [final]) = true.
Proof.
  intros Hfront Hfinal. revert acc.
  induction Hfront as [|pg front Hpg _ IH]; intros acc; cbn [app halts].
  - unfold goes_on. cbn [limit_reached Z.eqb negb andb].
    unfold ends_feed in Hfinal.
    destruct (is_empty (page_posts final)); [reflexivity|].
    cbn in Hfinal |- *. now rewrite negb_true_iff in Hfinal; rewrite Hfinal.
  - unfold goes_on. cbn [limit_reached Z.eqb negb andb].
    unfold ends_feed in Hpg. apply orb_false_iff in Hpg. destruct Hpg as [He Hc].
    rewrite He. apply negb_false_iff in Hc. rewrite Hc. cbn. apply IH.
Qed.

Lemma halts_without_limit_inv (pgs : list PostsPage) :
  forall acc,
    halts (Some 0) acc pgs = true ->
    exists front final,
      pgs = front ++ [final] /\
      Forall (fun pg => ends_feed pg = false) front /\
      ends_feed final = true.
Proof.
  induction pgs as [|pg pgs IH]; intros acc Hhalt; [discriminate|].
  cbn [halts] in Hhalt. unfold goes_on in Hhalt.
  cbn [limit_reached Z.eqb negb andb] in Hhalt. rewrite andb_true_r in Hhalt.
  destruct (negb (is_empty (page_posts pg)) && truthy (next_cursor pg)) eqn:Hgo.
  - apply IH in Hhalt. destruct Hhalt as [front [final [-> [Hfront Hfinal]]]].
    exists (pg :: front), final. split; [reflexivity|]. split; [|exact Hfinal].
    constructor; [|exact Hfront].
    apply andb_prop in Hgo. destruct Hgo as [He Hc].
    unfold ends_feed. apply negb_true_iff in He. now rewrite He, Hc.
  - apply is_empty_true in Hhalt. subst pgs.
    exists [], pg. split; [reflexivity|]. split; [constructor|].
    unfold ends_feed.
    destruct (is_empty (page_posts pg)); [reflexivity|].
    cbn in Hgo |- *. now rewrite Hgo.
Qed.

(** C9. [max_posts = 0] is no limit: the run is, step for step, the run with
    [max_posts = None]; the collection goes on from page to page until a
    page has no records or no cursor, and returns every record of every
    page it fetched. *)
Theorem zero_limit_is_no_limit (w : World) :
  (forall fuel,
     get_all_posts py net fstr self fuel sort (Some 0) w =
     get_all_posts py net fstr self fuel sort None w) /\
  (forall front final w',
     chain JNull w (front ++ [final]) w' ->
     Forall (fun pg => ends_feed pg = false) front ->
     ends_feed final = true ->
     get_all_posts py net fstr self (List.length (front ++ [final])) sort (Some 0) w =
       (Returns (all_records (front ++ [final])), w')) /\
  (forall fuel res w',
     get_all_posts py net fstr self fuel sort (Some 0) w = (Returns res, w') ->
     exists front final,
       chain JNull w (front ++ [final]) w' /\
       Forall (fun pg => ends_feed pg = false) front /\
       ends_feed final = true /\
       res = all_records (front ++ [final])).
Proof.
  unfold get_all_posts. split; [|split].
  - intros fuel. apply limit_zero_is_none.
  - intros front final w' Hch Hfront Hfinal.
    rewrite (loop_of_chain _ _ _ _ Hch (Some 0) []);
      [reflexivity | now apply halts_without_limit | now right].
  - intros fuel res w' Hrun. apply chain_of_loop in Hrun.
    destruct Hrun as [pgs [Hch [Hhalt [_ Hres]]]].
    apply halts_without_limit_inv in Hhalt.
    destruct Hhalt as [front [final [-> [Hfront Hfinal]]]].
    exists front, final. split; [exact Hch|]. split; [exact Hfront|].
    split; [exact Hfinal|]. apply Hres. now right.
Qed.

(** C5. When the response to [get_posts] is a 401 and the client has no API
    key, [get_posts] returns the page without records and without cursor and
    raises nothing; the pagination loop that asked for the page then returns
    what it holds. *)
Theorem unauthorized_gives_empty_page (limit : Z) (before : json)
    (w : World) (r : Response) (w' : World) :
  _request py net self "GET" (posts_url fstr sort limit before) w = (Returns r, w') ->
  status_code r = 401 ->
  key_given (api_key self) = false ->
  get_posts py net fstr self sort limit before w = (Returns (mkPage [] JNull), w') /\
  (limit = 100 ->
   forall fuel mp acc, loop (S fuel) mp acc before w = (Returns acc, w')).
Proof.
  intros Hreq Hst Hkey.
  assert (Hget : get_posts py net fstr self sort limit before w =
                 (Returns (mkPage [] JNull), w')).
  { unfold get_posts, bind at 1. rewrite Hreq, Hst, Hkey. reflexivity. }
  split; [exact Hget|].
  intros -> fuel mp acc.
  now rewrite (collect_step _ _ _ _ _ _ _ Hget).
Qed.

End PaginationFacts.

(** ** Comments *)

Section CommentFacts.

Variable py : Runtime.
Variable net : nat -> HttpRequest -> net_outcome.
Variable self : MoltbookAPI.

Lemma build_comment_post_id (post_id : string) (c : json) (cm : Comment) :
  build_comment post_id c = inr cm -> comment_post_id cm = post_id.
Proof.
  unfold build_comment, bind_sum. intros H.
  repeat match type of H with
         | match ?x with _ => _ end = _ => destruct x; try discriminate
         end.
  now inversion H.
Qed.

Lemma for_each_comment_post_id (post_id : string) (items : list json) :
  forall cs,
    for_each (build_comment post_id) items = inr cs ->
    Forall (fun cm => comment_post_id cm = post_id) cs.
Proof.
  induction items as [|x items IH]; intros cs H; simpl in H.
  - inversion H. constructor.
  - unfold bind_sum in H.
    destruct (build_comment post_id x) as [e|cm] eqn:Hb; [discriminate|].
    destruct (for_each (build_comment post_id) items) as [e|l]; [discriminate|].
    inversion H; subst. constructor.
    + eapply build_comment_post_id; eassumption.
    + now apply IH.
Qed.

(** C10. Every [Comment] that [get_post_comments] returns carries the
    [post_id] it was called with, whatever the response body says. *)
Theorem comments_carry_post_id (post_id sort : string) (w : World)
    (cs : list Comment) (w' : World) :
  get_post_comments py net self post_id sort w = (Returns cs, w') ->
  Forall (fun cm => comment_post_id cm = post_id) cs.
Proof.
  unfold get_post_comments, bind. intros H.
  destruct (_request py net self "GET" (comments_url post_id sort) w)
    as [[r|e|] w1]; try discriminate.
  destruct ((status_code r =? 401) && negb (key_given (api_key self))).
  - inversion H. constructor.
  - destruct (raise_for_status r w1) as [[[]|e|] w2]; try discriminate.
    destruct (json_of r w2) as [[data|e|] w3]; try discriminate.
    unfold lift in H.
    destruct (parse_comments post_id data) as [e|l] eqn:Hp; [discriminate|].
    inversion H; subst.
    unfold parse_comments, bind_sum in Hp.
    destruct (dict_get data "comments" (JArr [])) as [e|v]; [discriminate|].
    destruct (py_iter v) as [e|items]; [discriminate|].
    now apply for_each_comment_post_id in Hp.
Qed.

End CommentFacts.

(** ** More on [_request] *)

Section RequestMore.

Variable py : Runtime.
Variable net : nat -> HttpRequest -> net_outcome.
Variable self : MoltbookAPI.
Variables method url : string.

Local Abbreviation req := (mkRequest method url (client_headers self)).
Local Abbreviation outcome_at := (attempt_outcome net self method url).
Local Abbreviation attempts := (Z.to_nat (max_retries self)).
Local Abbreviation backoff_of := (backoff_outcome py self).
Local Abbreviation world_after := (after_attempt self method url).

(** The loop up to the first attempt that is not transient. *)
Lemma request_loop_decisive (delay : nat -> Q) (k : nat) :
  forall (a m : nat) le rv w,
    (forall j, (j < k)%nat -> backoff_of (a + j) = inr (delay (a + j)%nat)) ->
    (forall j, (j < k)%nat -> transient (outcome_at w j) = true) ->
    transient (outcome_at w k) = false ->
    request_loop py net self method url (map Z.of_nat (seq a (k + S m))) le rv w =
      (match outcome_at w k with
       | Responded r => Returns (LoopReturn r)
       | TimedOut t => Raises (TimeoutException t)
       | NetFailed t => Raises (TransportError t)
       end,
       mkWorld (calls w + S k)
               (log w ++ retry_trace self method url delay a k ++ [EvRequest req])).
Proof.
  induction k as [|k IH]; intros a m le rv w Hsleep Hbefore Hat.
  - cbn [Nat.add seq map request_loop]. unfold bind at 1.
    rewrite attempt_body_cases.
    unfold retry_trace, after_request; cbn [seq flat_map app].
    rewrite Nat.add_1_r.
    destruct (outcome_at w 0) as [r|t|t]; simpl in Hat.
    + rewrite Hat. reflexivity.
    + discriminate.
    + reflexivity.
  - cbn [Nat.add seq map request_loop]. unfold bind at 1.
    rewrite attempt_body_cases.
    pose proof (Hsleep 0%nat (Nat.lt_0_succ k)) as H0. rewrite Nat.add_0_r in H0.
    pose proof (Hbefore 0%nat (Nat.lt_0_succ k)) as Ht.
    rewrite H0.
    assert (Hrest : forall le1 rv1,
      request_loop py net self method url (map Z.of_nat (seq (S a) (k + S m))) le1 rv1
        (world_after (delay a) w) =
      (match outcome_at w (S k) with
       | Responded r => Returns (LoopReturn r)
       | TimedOut t => Raises (TimeoutException t)
       | NetFailed t => Raises (TransportError t)
       end,
       mkWorld (calls w + S (S k))
               (log w ++ retry_trace self method url delay a (S k) ++ [EvRequest req]))).
    { intros le1 rv1. rewrite (IH (S a) m).
      - rewrite (outcome_at_after net self method url (delay a)).
        f_equal. unfold after_attempt; cbn [calls log].
        f_equal; [lia|].
        unfold retry_trace. cbn [seq flat_map].
        rewrite <- !app_assoc. reflexivity.
      - intros j Hj. replace (S a + j)%nat with (a + S j)%nat by lia.
        apply Hsleep. lia.
      - intros j Hj. rewrite outcome_at_after. apply Hbefore. lia.
      - rewrite outcome_at_after. exact Hat. }
    destruct (outcome_at w 0) as [r|t|t]; simpl in Ht.
    + rewrite Ht. apply Hrest.
    + apply Hrest.
    + discriminate.
Qed.

(** X1. A response whose status is outside the retry set ends the call at
    once: after [k] transient attempts, each followed by its backoff (the
    backoffs taking place), the [k+1]-th request is the last one and its
    response is returned as it is.  A first such response costs one request
    and no sleep, whatever the runtime makes of the delay. *)
Theorem request_returns_first_final_response (delay : nat -> Q) (w : World)
    (k : nat) (r : Response) :
  (forall j, (j < k)%nat -> backoff_of j = inr (delay j)) ->
  (k < attempts)%nat ->
  (forall j, (j < k)%nat -> transient (outcome_at w j) = true) ->
  outcome_at w k = Responded r ->
  is_retryable (status_code r) = false ->
  _request py net self method url w =
    (Returns r,
     mkWorld (calls w + S k)
             (log w ++ retry_trace self method url delay 0 k ++ [EvRequest req])).
Proof.
  intros Hd Hk Hbefore Hat Hfinal.
  unfold _request, bind, range.
  replace attempts with (k + S (attempts - S k))%nat by lia.
  rewrite (request_loop_decisive delay k 0 _ None None w Hd Hbefore)
    by (rewrite Hat; exact Hfinal).
  rewrite Hat. reflexivity.
Qed.

(** X2. A transport failure that is not a timeout is not retried: it is
    raised to the caller from the attempt at which it happens (the backoffs
    of the transient attempts before it taking place). *)
Theorem request_raises_transport_error (delay : nat -> Q) (w : World)
    (k : nat) (t : nat) :
  (forall j, (j < k)%nat -> backoff_of j = inr (delay j)) ->
  (k < attempts)%nat ->
  (forall j, (j < k)%nat -> transient (outcome_at w j) = true) ->
  outcome_at w k = NetFailed t ->
  _request py net self method url w =
    (Raises (TransportError t),
     mkWorld (calls w + S k)
             (log w ++ retry_trace self method url delay 0 k ++ [EvRequest req])).
Proof.
  intros Hd Hk Hbefore Hat.
  unfold _request, bind, range.
  replace attempts with (k + S (attempts - S k))%nat by lia.
  rewrite (request_loop_decisive delay k 0 _ None None w Hd Hbefore)
    by (rewrite Hat; reflexivity).
  rewrite Hat. reflexivity.
Qed.

(** What any run of the loop does to the world: some requests, all the
    same, with sleeps between them. *)
Lemma request_loop_effects (m : nat) :
  forall (a : nat) le rv w,
    exists n evs,
      (n <= m)%nat /\
      calls (snd (request_loop py net self method url (map Z.of_nat (seq a m)) le rv w))
        = (calls w + n)%nat /\
      log (snd (request_loop py net self method url (map Z.of_nat (seq a m)) le rv w))
        = log w ++ evs /\
      requests evs = repeat req n.
Proof.
  induction m as [|m IH]; intros a le rv w.
  - exists 0%nat, []. simpl. rewrite app_nil_r, Nat.add_0_r. auto.
  - remember (request_loop py net self method url (map Z.of_nat (seq a (S m))) le rv w)
      as run eqn:Hrun.
    cbn [seq map request_loop] in Hrun. unfold bind at 1 in Hrun.
    rewrite attempt_body_cases in Hrun.
    assert (Hone : forall o : Outcome loop_exit,
      run = (o, after_request self method url w) ->
      exists n evs, (n <= S m)%nat /\ calls (snd run) = (calls w + n)%nat /\
                    log (snd run) = log w ++ evs /\ requests evs = repeat req n).
    { intros o ->. exists 1%nat, [EvRequest req]. cbn [snd calls log after_request].
      split; [lia|]. split; [lia|]. split; reflexivity. }
    assert (Hmore : forall q le1 rv1,
      run = request_loop py net self method url (map Z.of_nat (seq (S a) m)) le1 rv1
              (world_after q w) ->
      exists n evs, (n <= S m)%nat /\ calls (snd run) = (calls w + n)%nat /\
                    log (snd run) = log w ++ evs /\ requests evs = repeat req n).
    { intros q le1 rv1 ->.
      destruct (IH (S a) le1 rv1 (world_after q w))
        as [n [evs [Hn [Hc [Hl Hr]]]]].
      cbn [after_attempt calls log] in Hc, Hl.
      exists (S n), ([EvRequest req] ++ [EvSleep q] ++ evs).
      split; [lia|]. split; [lia|]. split.
      - rewrite Hl. now rewrite <- !app_assoc.
      - cbn [app requests repeat]. now rewrite Hr. }
    destruct (outcome_at w 0) as [r|t|t].
    + destruct (is_retryable (status_code r)); [|eapply Hone; exact Hrun].
      destruct (backoff_of a); [eapply Hone; exact Hrun|].
      eapply Hmore; exact Hrun.
    + destruct (backoff_of a); [eapply Hone; exact Hrun|].
      eapply Hmore; exact Hrun.
    + eapply Hone; exact Hrun.
Qed.

Lemma request_world (w : World) :
  snd (_request py net self method url w) =
  snd (request_loop py net self method url (range (max_retries self)) None None w).
Proof.
  unfold _request, bind.
  destruct (request_loop py net self method url (range (max_retries self)) None None w)
    as [[ex|e|] w1]; try reflexivity.
  destruct ex as [r|le rv]; [reflexivity|].
  destruct le; [reflexivity|]. now destruct rv.
Qed.

Lemma events_since_app (w w' : World) (evs : list Event) :
  log w' = log w ++ evs -> events_since w w' = evs.
Proof.
  intros H. unfold events_since. rewrite H, skipn_app, skipn_all, Nat.sub_diag.
  reflexivity.
Qed.

(** X3. Whatever the service does, one call of [_request] sends at most
    [max_retries] requests, all of them the same request (method, URL and
    the client's headers), and only appends to the log of what happened. *)
Theorem request_sends_at_most_max_retries (w : World) :
  exists n,
    (n <= attempts)%nat /\
    calls (snd (_request py net self method url w)) = (calls w + n)%nat /\
    log (snd (_request py net self method url w))
      = log w ++ events_since w (snd (_request py net self method url w)) /\
    requests (events_since w (snd (_request py net self method url w))) = repeat req n.
Proof.
  rewrite request_world. unfold range.
  destruct (request_loop_effects attempts 0 None None w)
    as [n [evs [Hn [Hc [Hl Hr]]]]].
  exists n. rewrite (events_since_app _ _ _ Hl). auto.
Qed.

(** The runs of the loop that end in [return r]. *)
Lemma request_loop_return_inv (m : nat) :
  forall (a : nat) le rv w r w',
    request_loop py net self method url (map Z.of_nat (seq a m)) le rv w =
      (Returns (LoopReturn r), w') ->
    exists k,
      (k < m)%nat /\
      (forall j, (j < k)%nat -> transient (outcome_at w j) = true) /\
      outcome_at w k = Responded r /\
      is_retryable (status_code r) = false /\
      calls w' = (calls w + S k)%nat.
Proof.
  induction m as [|m IH]; intros a le rv w r w' Hrun; [discriminate|].
  cbn [seq map request_loop] in Hrun. unfold bind at 1 in Hrun.
  rewrite attempt_body_cases in Hrun.
  assert (Hmore : forall q le1 rv1,
    transient (outcome_at w 0) = true ->
    request_loop py net self method url (map Z.of_nat (seq (S a) m)) le1 rv1
      (world_after q w) = (Returns (LoopReturn r), w') ->
    exists k,
      (k < S m)%nat /\
      (forall j, (j < k)%nat -> transient (outcome_at w j) = true) /\
      outcome_at w k = Responded r /\
      is_retryable (status_code r) = false /\
      calls w' = (calls w + S k)%nat).
  { intros q le1 rv1 H0 Hrec. apply IH in Hrec.
    destruct Hrec as [k [Hk [Hbefore [Hat [Hfinal Hc]]]]].
    exists (S k). split; [lia|]. split; [|split; [|split; [exact Hfinal|]]].
    - intros [|j] Hj; [exact H0|].
      rewrite <- (outcome_at_after net self method url q). apply Hbefore. lia.
    - now rewrite <- (outcome_at_after net self method url q).
    - cbn [after_attempt calls] in Hc. lia. }
  destruct (outcome_at w 0) as [r0|t|t] eqn:E0.
  - destruct (is_retryable (status_code r0)) eqn:Er.
    + destruct (backoff_of a) as [e|q]; [discriminate|].
      eapply Hmore; [exact Er | exact Hrun].
    + injection Hrun as -> <-. exists 0%nat.
      split; [lia|]. split; [intros j Hj; lia|]. split; [exact E0|].
      split; [exact Er|]. cbn [after_request calls]. lia.
  - destruct (backoff_of a) as [e|q]; [discriminate|].
    eapply Hmore; [reflexivity | exact Hrun].
  - discriminate.
Qed.

(** X4. A response that [_request] returns is one the service gave, to the
    attempt after which the call ended.  If its status is outside the retry
    set, every earlier attempt was transient; if its status is in the retry
    set, it is the response to the last of [max_retries] attempts, none of
    which timed out. *)
Theorem request_returns_a_served_response (w : World) (r : Response) (w' : World) :
  _request py net self method url w = (Returns r, w') ->
  exists k,
    (k < attempts)%nat /\
    outcome_at w k = Responded r /\
    calls w' = (calls w + S k)%nat /\
    (forall j, (j < k)%nat -> transient (outcome_at w j) = true) /\
    (is_retryable (status_code r) = true ->
     S k = attempts /\
     forall j, (j < attempts)%nat -> retryable_response (outcome_at w j) = true).
Proof.
  unfold _request, bind, range. intros Hrun.
  destruct (request_loop py net self method url (map Z.of_nat (seq 0 attempts)) None None w)
    as [[ex|e|] w1] eqn:Hloop; try discriminate.
  destruct ex as [r1|le rv].
  - injection Hrun as -> ->.
    apply request_loop_return_inv in Hloop.
    destruct Hloop as [k [Hk [Hbefore [Hat [Hfinal Hc]]]]].
    exists k. split; [exact Hk|]. split; [exact Hat|]. split; [exact Hc|].
    split; [exact Hbefore|]. intros Hr. congruence.
  - destruct le as [e|]; [discriminate|].
    destruct rv as [r1|]; [|discriminate].
    injection Hrun as -> ->.
    apply request_loop_done_inv in Hloop.
    destruct Hloop as [Hall [Hst [Hcalls _]]].
    assert (Hnone : last_timeout (attempts_of net self method url w attempts) = None).
    { apply (f_equal fst) in Hst. cbn [fst] in Hst.
      unfold locals_after in Hst. rewrite fold_note_last_timeout in Hst.
      now destruct (last_timeout _). }
    assert (Hresp : forall j, (j < attempts)%nat ->
                      retryable_response (outcome_at w j) = true).
    { intros j Hj. pose proof (Hall j Hj) as Htr.
      rewrite last_timeout_none_iff in Hnone.
      rewrite Forall_forall in Hnone.
      assert (Hin : In (outcome_at w j) (attempts_of net self method url w attempts)).
      { unfold attempts_of. apply in_map. apply in_seq. lia. }
      specialize (Hnone _ Hin).
      destruct (outcome_at w j) as [r0|t|t]; simpl in *;
        [exact Htr | now destruct (Hnone t) | discriminate]. }
    destruct attempts as [|m] eqn:En; [discriminate|].
    rewrite locals_at_snoc in Hst.
    pose proof (Hresp m (Nat.lt_succ_diag_r m)) as Hlast.
    destruct (outcome_at w m) as [r0|t|t] eqn:Em; try discriminate.
    cbn [note_outcome] in Hst. injection Hst as _ ->.
    exists m. split; [lia|]. split; [exact Em|]. split; [exact Hcalls|].
    split; [intros j Hj; apply Hall; lia|].
    intros _. split; [reflexivity | exact Hresp].
Qed.

(** What [_request] can raise. *)
Lemma request_raise_kinds (w : World) (e : exn) :
  fst (_request py net self method url w) = Raises e ->
  e = ValueError \/ e = OverflowError \/ (exists t, e = TransportError t) \/
  (exists t, e = TimeoutException t) \/ e = UnboundLocalError "r".
Proof.
  unfold _request, bind, range. intros Hrun.
  destruct (request_loop py net self method url (map Z.of_nat (seq 0 attempts)) None None w)
    as [[ex|e0|] w1] eqn:Hloop; cbn [fst] in Hrun.
  - destruct ex as [r|le rv]; [discriminate|].
    destruct le as [e0|].
    + cbn [fst raise] in Hrun. injection Hrun as ->.
      apply request_loop_done_inv in Hloop. destruct Hloop as [_ [Hst _]].
      apply (f_equal fst) in Hst. cbn [fst] in Hst.
      unfold locals_after in Hst. rewrite fold_note_last_timeout in Hst.
      destruct (last_timeout _) as [t|]; [|discriminate].
      injection Hst as ->. right. right. right. left. now exists t.
    + destruct rv; [discriminate|]. cbn [fst raise] in Hrun.
      injection Hrun as <-. now repeat right.
  - injection Hrun as ->. apply request_loop_raises in Hloop.
    destruct Hloop as [->|[->|[t ->]]];
      [now left | right; now left | right; right; left; now exists t].
  - discriminate.
Qed.

(** X5. [_request] does not catch what a backoff raises.  With at least one
    attempt allowed, when the first attempt times out or is answered with a
    status of the retry set and its backoff is refused ([time.sleep] raises
    [ValueError] on a negative length and [OverflowError] on one too large,
    or the product is not finite), the call raises that exception after its
    single request and retries nothing; the exception is a [ValueError] or
    an [OverflowError]. *)
Theorem refused_backoff_is_raised (w : World) (e : exn) :
  1 <= max_retries self ->
  transient (outcome_at w 0) = true ->
  backoff_of 0 = inl e ->
  _request py net self method url w = (Raises e, after_request self method url w) /\
  (e = ValueError \/ e = OverflowError).
Proof.
  intros Hn Htr Hb. split; [|now apply (backoff_error_kinds py self 0)].
  unfold _request, bind at 1, range.
  destruct attempts as [|m] eqn:En; [lia|].
  cbn [seq map request_loop]. unfold bind at 1.
  rewrite attempt_body_cases, Hb.
  destruct (outcome_at w 0) as [r|t|t]; simpl in Htr.
  - rewrite Htr. reflexivity.
  - reflexivity.
  - discriminate.
Qed.

End RequestMore.

(** X6. Every request that a client built by [__init__] sends goes to the URL
    and with the method it was asked for and carries the default headers,
    followed by [Authorization: Bearer <key>] exactly when a non-empty API
    key was given. *)
Theorem requests_carry_authorization (py : Runtime)
    (net : nat -> HttpRequest -> net_outcome)
    (key : option string) (retries : Z) (delay : Q) (method url : string)
    (w : World) (q : HttpRequest) :
  In q (requests (events_since w
          (snd (_request py net (init key retries delay) method url w)))) ->
  req_method q = method /\
  req_url q = url /\
  req_headers q =
    DEFAULT_HEADERS ++
      match key with
      | Some k => if String.eqb k "" then [] else [("Authorization", ("Bearer " ++ k)%string)]
      | None => []
      end.
Proof.
  intros Hin.
  rewrite request_world in Hin. unfold range in Hin.
  destruct (request_loop_effects py net (init key retries delay) method url
              (Z.to_nat (max_retries (init key retries delay))) 0 None None w)
    as [n [evs [_ [_ [Hl Hreqs]]]]].
  rewrite (events_since_app _ _ _ Hl), Hreqs in Hin.
  apply repeat_spec in Hin. subst q.
  split; [reflexivity|]. split; [reflexivity|].
  unfold init, key_given. cbn [req_headers client_headers].
  destruct key as [k|]; [|now rewrite app_nil_r].
  destruct (String.eqb k ""); cbn [negb]; [now rewrite app_nil_r | reflexivity].
Qed.

(** ** Reading the bodies *)

Section ParsingFacts.

Context {A : Type}.
Variable build : json -> exn + A.

(** A [for] loop over the items gives a list exactly when every item builds. *)
Lemma for_each_ok (items : list json) :
  forall l, for_each build items = inr l <->
            Forall2 (fun x a => build x = inr a) items l.
Proof.
  induction items as [|x items IH]; intros l; simpl.
  - split.
    + intros H. injection H as <-. constructor.
    + intros H. inversion H. reflexivity.
  - unfold bind_sum. split.
    + intros H. destruct (build x) as [e|a] eqn:Hx; [discriminate|].
      destruct (for_each build items) as [e|l'] eqn:Hrest; [discriminate|].
      injection H as <-. constructor; [exact Hx | now apply IH].
    + intros H. inversion H as [|? a ? l' Hx Hrest]; subst.
      rewrite Hx. apply IH in Hrest. now rewrite Hrest.
Qed.

(** It raises what the first item that does not build raises. *)
Lemma for_each_first_error (pre post : list json) (x : json) (e : exn) :
  Forall (fun y => exists a, build y = inr a) pre ->
  build x = inl e ->
  for_each build (pre ++ x :: post) = inl e.
Proof.
  intros Hpre Hx. induction Hpre as [|y pre [a Hy] _ IH]; simpl.
  - unfold bind_sum. now rewrite Hx.
  - unfold bind_sum in *. now rewrite Hy, IH.
Qed.

End ParsingFacts.

Ltac split_lookups :=
  repeat match goal with
         | |- context [assoc ?k ?fields] =>
             destruct (assoc k fields); cbn [find]; try reflexivity
         end.

(** X7. [Post(...)] on a dict: the first required key that is missing, in the
    order [id, title, submolt, author, upvotes, downvotes, comment_count,
    created_at], is raised as [KeyError]; with all of them there the record
    is built, [content] and [url] being [None] and [is_pinned] being [False]
    where the dict has no such key.  Anything that is not a dict raises
    [TypeError]. *)
Theorem build_post_on_dict (p : json) :
  match p with
  | JObj fields =>
      build_post p =
        match first_missing required_post_keys fields with
        | Some k => inl (KeyError k)
        | None => inr (post_of_fields fields)
        end
  | _ => build_post p = inl TypeError
  end.
Proof.
  destruct p as [| | | | | |fields]; try reflexivity.
  unfold build_post, bind_sum, getitem, dict_get, first_missing,
    required_post_keys, post_of_fields, field_or.
  cbn [find]. split_lookups.
Qed.

(** [Submolt(...)] on a dict. *)
Lemma build_submolt_dict (fields : list (string * json)) :
  build_submolt (JObj fields) =
    match first_missing required_submolt_keys fields with
    | Some k => inl (KeyError k)
    | None => inr (submolt_of_fields fields)
    end.
Proof.
  unfold build_submolt, bind_sum, getitem, dict_get, first_missing,
    required_submolt_keys, submolt_of_fields, field_or.
  cbn [find]. split_lookups.
Qed.

(** [Agent(...)] never fails on a dict. *)
Lemma build_agent_dict (fields : list (string * json)) :
  build_agent (JObj fields) = inr (agent_of_fields fields).
Proof.
  unfold build_agent, bind_sum, dict_get, agent_of_fields, field_or.
  split_lookups.
Qed.

Lemma build_agent_error (a : json) (e : exn) :
  build_agent a = inl e -> e = AttributeError.
Proof.
  destruct a as [| | | | | |fields]; simpl; try (intros H; now injection H).
  rewrite build_agent_dict. discriminate.
Qed.

(** ** The endpoints *)

Section EndpointFacts.

Variable py : Runtime.
Variable net : nat -> HttpRequest -> net_outcome.
Variable fstr : json -> string.
Variable self : MoltbookAPI.

Lemma raise_for_status_ok (r : Response) (w : World) :
  is_success (status_code r) = true -> raise_for_status r w = (Returns tt, w).
Proof. unfold raise_for_status, is_success. now intros ->. Qed.

Lemma raise_for_status_bad (r : Response) (w : World) :
  is_success (status_code r) = false ->
  raise_for_status r w = (Raises (HTTPStatusError (status_code r)), w).
Proof. unfold raise_for_status, is_success. now intros ->. Qed.

Lemma success_is_not_401 (status : Z) :
  is_success status = true -> (status =? 401) = false.
Proof.
  unfold is_success. intros H. apply andb_prop in H. destruct H as [_ H].
  apply Z.leb_le in H. apply Z.eqb_neq. lia.
Qed.

Lemma get_posts_unfold (sort : string) (limit : Z) (before : json) (w : World) :
  get_posts py net fstr self sort limit before w =
  bind (_request py net self "GET" (posts_url fstr sort limit before))
       (page_of_response self) w.
Proof. reflexivity. Qed.

Lemma get_submolt_posts_unfold (name sort : string) (limit : Z) (before : json)
    (w : World) :
  get_submolt_posts py net fstr self name sort limit before w =
  bind (_request py net self "GET" (submolt_feed_url fstr name sort limit before))
       (page_of_response self) w.
Proof. reflexivity. Qed.

(** A successful response with a dict body: every item builds or the first
    that does not decides. *)
Lemma page_of_response_parses (r : Response) (w : World)
    (fields : list (string * json)) (items : list json) :
  is_success (status_code r) = true ->
  body r = Some (JObj fields) ->
  field_or fields "posts" (JArr []) = JArr items ->
  (forall ps,
     Forall2 (fun x p => build_post x = inr p) items ps ->
     page_of_response self r w =
       (Returns (mkPage ps (field_or fields "next_cursor" JNull)), w)) /\
  (forall pre x post e,
     items = pre ++ x :: post ->
     Forall (fun y => exists p, build_post y = inr p) pre ->
     build_post x = inl e ->
     page_of_response self r w = (Raises e, w)).
Proof.
  intros Hok Hbody Hposts.
  assert (Hparse : parse_posts (JObj fields) = for_each build_post items).
  { unfold parse_posts, bind_sum, dict_get. unfold field_or in Hposts.
    destruct (assoc "posts" fields) as [v|].
    - subst v. reflexivity.
    - injection Hposts as <-. reflexivity. }
  assert (Heq : page_of_response self r w =
    bind (lift (for_each build_post items))
         (fun ps => ret (mkPage ps (field_or fields "next_cursor" JNull))) w).
  { unfold page_of_response. rewrite (success_is_not_401 _ Hok). cbn [andb].
    unfold bind at 1. rewrite (raise_for_status_ok _ _ Hok).
    unfold bind at 1, json_of. rewrite Hbody. unfold ret at 1.
    rewrite Hparse. unfold bind, lift, dict_get, field_or.
    destruct (for_each build_post items); [reflexivity|].
    destruct (assoc "next_cursor" fields); reflexivity. }
  rewrite Heq. split.
  - intros ps Hall. apply for_each_ok in Hall. rewrite Hall. reflexivity.
  - intros pre x post e -> Hpre Hx.
    rewrite (for_each_first_error build_post pre post x e Hpre Hx). reflexivity.
Qed.

(** X8. [get_posts] on a successful response whose body is a dict with a
    list under ["posts"] (or no such key): if every item builds a [Post] the
    page holds one record per item, in order, and the body's [next_cursor]
    ([None] if absent); otherwise the call raises what the first item that
    does not build raises, and returns no partial page. *)
Theorem get_posts_parses_page (sort : string) (limit : Z) (before : json)
    (w : World) (r : Response) (w' : World)
    (fields : list (string * json)) (items : list json) :
  _request py net self "GET" (posts_url fstr sort limit before) w = (Returns r, w') ->
  is_success (status_code r) = true ->
  body r = Some (JObj fields) ->
  field_or fields "posts" (JArr []) = JArr items ->
  (forall ps,
     Forall2 (fun x p => build_post x = inr p) items ps ->
     get_posts py net fstr self sort limit before w =
       (Returns (mkPage ps (field_or fields "next_cursor" JNull)), w')) /\
  (forall pre x post e,
     items = pre ++ x :: post ->
     Forall (fun y => exists p, build_post y = inr p) pre ->
     build_post x = inl e ->
     get_posts py net fstr self sort limit before w = (Raises e, w')).
Proof.
  intros Hreq Hok Hbody Hposts.
  assert (Hg : get_posts py net fstr self sort limit before w =
               page_of_response self r w').
  { rewrite get_posts_unfold. unfold bind at 1. now rewrite Hreq. }
  rewrite Hg.
  exact (page_of_response_parses r w' fields items Hok Hbody Hposts).
Qed.

Lemma page_of_response_bad (r : Response) (w : World) :
  is_success (status_code r) = false ->
  (status_code r =? 401) && negb (key_given (api_key self)) = false ->
  page_of_response self r w = (Raises (HTTPStatusError (status_code r)), w).
Proof.
  intros Hbad Hhard. unfold page_of_response. rewrite Hhard.
  unfold bind at 1. now rewrite (raise_for_status_bad _ _ Hbad).
Qed.

(** X9. A response that is not 2xx is a hard failure of the post and comment
    endpoints: [get_posts], [get_submolt_posts] and [get_post_comments] raise
    [HTTPStatusError] with its status, unless it is a 401 and no API key is
    set.  A 401 of a client that has an API key is raised. *)
Theorem post_endpoints_raise_status_error (w : World) (r : Response) (w' : World) :
  is_success (status_code r) = false ->
  (status_code r =? 401) && negb (key_given (api_key self)) = false ->
  (forall sort limit before,
     _request py net self "GET" (posts_url fstr sort limit before) w = (Returns r, w') ->
     get_posts py net fstr self sort limit before w =
       (Raises (HTTPStatusError (status_code r)), w')) /\
  (forall name sort limit before,
     _request py net self "GET" (submolt_feed_url fstr name sort limit before) w
       = (Returns r, w') ->
     get_submolt_posts py net fstr self name sort limit before w =
       (Raises (HTTPStatusError (status_code r)), w')) /\
  (forall post_id sort,
     _request py net self "GET" (comments_url post_id sort) w = (Returns r, w') ->
     get_post_comments py net self post_id sort w =
       (Raises (HTTPStatusError (status_code r)), w')).
Proof.
  intros Hbad Hhard. split; [|split].
  - intros sort limit before Hreq. rewrite get_posts_unfold.
    unfold bind at 1. rewrite Hreq. now apply page_of_response_bad.
  - intros name sort limit before Hreq. rewrite get_submolt_posts_unfold.
    unfold bind at 1. rewrite Hreq. now apply page_of_response_bad.
  - intros post_id sort Hreq. unfold get_post_comments, bind at 1.
    rewrite Hreq, Hhard. unfold bind at 1.
    now rewrite (raise_for_status_bad _ _ Hbad).
Qed.

(** X10. The community, leaderboard and statistics endpoints have no soft
    401: whatever the API key, a response that is not 2xx makes
    [get_submolts], [get_leaderboard] and [get_stats] raise
    [HTTPStatusError] with its status. *)
Theorem open_endpoints_raise_status_error (w : World) (r : Response) (w' : World) :
  is_success (status_code r) = false ->
  (_request py net self "GET" (API_BASE ++ "/submolts")%string w = (Returns r, w') ->
   get_submolts py net self w = (Raises (HTTPStatusError (status_code r)), w') /\
   get_stats py net self w = (Raises (HTTPStatusError (status_code r)), w')) /\
  (_request py net self "GET" (API_BASE ++ "/agents/leaderboard")%string w
     = (Returns r, w') ->
   get_leaderboard py net self w = (Raises (HTTPStatusError (status_code r)), w')).
Proof.
  intros Hbad. split.
  - intros Hreq. split.
    + unfold get_submolts, bind at 1. rewrite Hreq. unfold bind at 1.
      now rewrite (raise_for_status_bad _ _ Hbad).
    + unfold get_stats, bind at 1. rewrite Hreq. unfold bind at 1.
      now rewrite (raise_for_status_bad _ _ Hbad).
  - intros Hreq. unfold get_leaderboard, bind at 1.
    rewrite Hreq. unfold bind at 1.
    now rewrite (raise_for_status_bad _ _ Hbad).
Qed.

(** X11. Without an API key a 401 is no failure of the comment and community
    feed endpoints either: [get_post_comments] returns the empty list,
    [get_submolt_posts] the page without records and cursor, and the
    collector [get_all_submolt_posts] ends with what it holds. *)
Theorem unauthorized_degrades_quietly (w : World) (r : Response) (w' : World) :
  status_code r = 401 ->
  key_given (api_key self) = false ->
  (forall post_id sort,
     _request py net self "GET" (comments_url post_id sort) w = (Returns r, w') ->
     get_post_comments py net self post_id sort w = (Returns [], w')) /\
  (forall name sort limit before,
     _request py net self "GET" (submolt_feed_url fstr name sort limit before) w
       = (Returns r, w') ->
     get_submolt_posts py net fstr self name sort limit before w =
       (Returns (mkPage [] JNull), w')) /\
  (forall name sort before fuel mp acc,
     _request py net self "GET" (submolt_feed_url fstr name sort 100 before) w
       = (Returns r, w') ->
     get_all_submolt_posts_loop py net fstr self (S fuel) name sort mp acc before w =
       (Returns acc, w')).
Proof.
  intros Hst Hkey.
  assert (Hpage : forall name sort limit before,
     _request py net self "GET" (submolt_feed_url fstr name sort limit before) w
       = (Returns r, w') ->
     get_submolt_posts py net fstr self name sort limit before w =
       (Returns (mkPage [] JNull), w')).
  { intros name sort limit before Hreq. rewrite get_submolt_posts_unfold.
    unfold bind at 1. rewrite Hreq. unfold page_of_response.
    now rewrite Hst, Hkey. }
  split; [|split; [exact Hpage|]].
  - intros post_id sort Hreq. unfold get_post_comments, bind at 1.
    now rewrite Hreq, Hst, Hkey.
  - intros name sort before fuel mp acc Hreq.
    cbn [get_all_submolt_posts_loop]. unfold bind at 1.
    now rewrite (Hpage _ _ _ _ Hreq).
Qed.


Lemma for_each_dicts {B : Type} (build : json -> exn + B)
    (of_fields : list (string * json) -> B) (fss : list (list (string * json))) :
  Forall (fun fs => build (JObj fs) = inr (of_fields fs)) fss ->
  Forall2 (fun x a => build x = inr a) (map JObj fss) (map of_fields fss).
Proof.
  induction 1; simpl; constructor; assumption.
Qed.

Lemma parse_list_of (B : Type) (build : json -> exn + B) (key : string)
    (fields : list (string * json)) (items : list json) :
  field_or fields key (JArr []) = JArr items ->
  (v <-! dict_get (JObj fields) key (JArr []) ;;
   its <-! py_iter v ;; for_each build its) = for_each build items.
Proof.
  unfold bind_sum, dict_get, field_or. intros H.
  destruct (assoc key fields) as [v|].
  - subst v. reflexivity.
  - injection H as <-. reflexivity.
Qed.

(** X13. [get_submolts] is strict: on a successful response with a dict body
    it returns one [Submolt] per dict under ["submolts"] when each has the
    six required keys, and raises [KeyError] for the first missing key of
    the first community that lacks one, returning no partial list. *)
Theorem get_submolts_is_strict (w : World) (r : Response) (w' : World)
    (fields : list (string * json)) (items : list json) :
  _request py net self "GET" (API_BASE ++ "/submolts")%string w = (Returns r, w') ->
  is_success (status_code r) = true ->
  body r = Some (JObj fields) ->
  field_or fields "submolts" (JArr []) = JArr items ->
  (forall fss,
     items = map JObj fss ->
     Forall (fun fs => first_missing required_submolt_keys fs = None) fss ->
     get_submolts py net self w = (Returns (map submolt_of_fields fss), w')) /\
  (forall fss fs post k,
     items = map JObj fss ++ JObj fs :: post ->
     Forall (fun fs => first_missing required_submolt_keys fs = None) fss ->
     first_missing required_submolt_keys fs = Some k ->
     get_submolts py net self w = (Raises (KeyError k), w')).
Proof.
  intros Hreq Hok Hbody Hitems.
  assert (Hg : get_submolts py net self w =
               bind (lift (for_each build_submolt items)) ret w').
  { unfold get_submolts, bind at 1. rewrite Hreq.
    unfold bind at 1. rewrite (raise_for_status_ok _ _ Hok).
    unfold bind at 1, json_of. rewrite Hbody. unfold ret at 1.
    unfold parse_submolts. rewrite (parse_list_of _ _ _ _ _ Hitems).
    unfold bind, lift. now destruct (for_each build_submolt items). }
  rewrite Hg. split.
  - intros fss -> Hall.
    assert (H2 : Forall2 (fun x a => build_submolt x = inr a)
                   (map JObj fss) (map submolt_of_fields fss)).
    { apply for_each_dicts. eapply Forall_impl; [|exact Hall].
      intros fs Hfs. cbv beta in Hfs. now rewrite build_submolt_dict, Hfs. }
    apply for_each_ok in H2. now rewrite H2.
  - intros fss fs post k -> Hall Hk.
    rewrite (for_each_first_error build_submolt (map JObj fss) post (JObj fs)
               (KeyError k)); [reflexivity | |].
    + apply Forall_forall. intros y Hy. apply in_map_iff in Hy.
      destruct Hy as [fs' [<- Hin]]. rewrite Forall_forall in Hall.
      exists (submolt_of_fields fs'). now rewrite build_submolt_dict, (Hall _ Hin).
    + now rewrite build_submolt_dict, Hk.
Qed.

Lemma for_each_agent_error (items : list json) (e : exn) :
  for_each build_agent items = inl e -> e = AttributeError.
Proof.
  induction items as [|x items IH]; simpl; [discriminate|].
  unfold bind_sum. destruct (build_agent x) as [e0|a] eqn:Hx.
  - intros H. injection H as <-. eapply build_agent_error; eassumption.
  - destruct (for_each build_agent items) as [e0|l]; [|discriminate].
    intros H. injection H as <-. now apply IH.
Qed.

(** X14. [get_leaderboard] is lenient: on a successful response with a dict
    body it returns one [Agent] per dict under ["leaderboard"], with [""],
    ["unknown"] and [0] for the fields a dict lacks; and whatever the service
    answers it never raises [KeyError]. *)
Theorem get_leaderboard_is_lenient (w : World) :
  (forall r w' fields fss,
     _request py net self "GET" (API_BASE ++ "/agents/leaderboard")%string w
       = (Returns r, w') ->
     is_success (status_code r) = true ->
     body r = Some (JObj fields) ->
     field_or fields "leaderboard" (JArr []) = JArr (map JObj fss) ->
     get_leaderboard py net self w = (Returns (map agent_of_fields fss), w')) /\
  (forall k, fst (get_leaderboard py net self w) <> Raises (KeyError k)).
Proof.
  split.
  - intros r w' fields fss Hreq Hok Hbody Hitems.
    unfold get_leaderboard, bind at 1. rewrite Hreq.
    unfold bind at 1. rewrite (raise_for_status_ok _ _ Hok).
    unfold bind at 1, json_of. rewrite Hbody. unfold ret at 1.
    unfold parse_agents. rewrite (parse_list_of _ _ _ _ _ Hitems).
    assert (H2 : Forall2 (fun x a => build_agent x = inr a)
                   (map JObj fss) (map agent_of_fields fss)).
    { apply for_each_dicts. apply Forall_forall. intros fs _.
      apply build_agent_dict. }
    apply for_each_ok in H2. now rewrite H2.
  - intros k. unfold get_leaderboard, bind at 1.
    destruct (_request py net self "GET" (API_BASE ++ "/agents/leaderboard")%string w)
      as [[r|e|] w1] eqn:Hreq; cbn [fst].
    + unfold bind at 1, raise_for_status.
      destruct ((200 <=? status_code r) && (status_code r <=? 299));
        [|discriminate].
      unfold ret at 1, bind at 1, json_of.
      destruct (body r) as [data|]; [|discriminate].
      unfold ret at 1, lift, parse_agents, bind_sum.
      destruct (dict_get data "leaderboard" (JArr [])) as [e|v] eqn:Hd.
      * destruct data; simpl in Hd; try (injection Hd as <-; discriminate).
        destruct (assoc "leaderboard" fields); discriminate.
      * destruct (py_iter v) as [e|items] eqn:Hi.
        -- destruct v; simpl in Hi; try (injection Hi as <-; discriminate);
             discriminate.
        -- destruct (for_each build_agent items) as [e|l] eqn:Hf; [|discriminate].
           apply for_each_agent_error in Hf. subst e. discriminate.
    + intros H. injection H as ->.
      pose proof (request_raise_kinds py net self "GET"
                    (API_BASE ++ "/agents/leaderboard")%string w (KeyError k)) as Hk.
      rewrite Hreq in Hk. cbn [fst] in Hk.
      destruct (Hk eq_refl) as [H|[H|[[t H]|[[t H]|H]]]]; discriminate.
    + discriminate.
Qed.

Lemma tail_keeps_world {B : Type} (r : Response) (parse : json -> exn + B) (w : World) :
  snd ((raise_for_status r ;;; data <- json_of r ;; lift (parse data)) w) = w.
Proof.
  unfold bind, raise_for_status, json_of, lift.
  destruct ((200 <=? status_code r) && (status_code r <=? 299)); [|reflexivity].
  cbn. destruct (body r) as [data|]; [|reflexivity].
  cbn. now destruct (parse data).
Qed.

(** X15. [get_stats] asks what [get_submolts] asks: the two calls leave the
    same requests and sleeps behind; and on a successful response with a
    dict body [get_stats] reads [count], [total_posts] and [total_comments],
    each [0] when absent. *)
Theorem get_stats_reads_counters (w : World) :
  snd (get_stats py net self w) = snd (get_submolts py net self w) /\
  (forall r w' fields,
     _request py net self "GET" (API_BASE ++ "/submolts")%string w = (Returns r, w') ->
     is_success (status_code r) = true ->
     body r = Some (JObj fields) ->
     get_stats py net self w = (Returns (stats_of_fields fields), w')).
Proof.
  split.
  - unfold get_stats, get_submolts, bind at 1 4.
    destruct (_request py net self "GET" (API_BASE ++ "/submolts")%string w)
      as [[r|e|] w1]; try reflexivity.
    now rewrite !tail_keeps_world.
  - intros r w' fields Hreq Hok Hbody.
    unfold get_stats, bind at 1. rewrite Hreq.
    unfold bind at 1. rewrite (raise_for_status_ok _ _ Hok).
    unfold bind at 1, json_of. rewrite Hbody. unfold ret at 1.
    unfold read_stats, bind_sum, dict_get, stats_of_fields, field_or, lift.
    split_lookups.
Qed.

End EndpointFacts.

(** ** The collector of both pagination loops *)

Section PaginateFacts.

Variable fetch : json -> M PostsPage.

Lemma paginate_step fuel mp acc c w pg w1 :
  fetch c w = (Returns pg, w1) ->
  paginate fetch (S fuel) mp acc c w =
    if is_empty (page_posts pg) then (Returns acc, w1)
    else if limit_reached mp (acc ++ page_posts pg)
    then (Returns (slice_to (acc ++ page_posts pg) (limit_of mp)), w1)
    else if negb (truthy (next_cursor pg)) then (Returns (acc ++ page_posts pg), w1)
    else paginate fetch fuel mp (acc ++ page_posts pg) (next_cursor pg) (after_pause w1).
Proof.
  intros Hpg. cbn [paginate]. unfold bind at 1. rewrite Hpg.
  destruct (is_empty (page_posts pg)); [reflexivity|].
  destruct (limit_reached mp (acc ++ page_posts pg)); [reflexivity|].
  destruct (negb (truthy (next_cursor pg))); reflexivity.
Qed.

Lemma paginate_step_failed fuel mp acc c w (o : Outcome PostsPage) w1 :
  fetch c w = (o, w1) ->
  (forall pg, o <> Returns pg) ->
  paginate fetch (S fuel) mp acc c w =
    (match o with Returns _ => OutOfFuel | Raises e => Raises e | OutOfFuel => OutOfFuel end,
     w1).
Proof.
  intros Hpg Hno. cbn [paginate]. unfold bind at 1. rewrite Hpg.
  destruct o as [pg|e|]; [now destruct (Hno pg) | reflexivity | reflexivity].
Qed.

Lemma nonempty_grows (acc posts : list Post) :
  is_empty posts = false ->
  (List.length acc < List.length (acc ++ posts))%nat.
Proof.
  destruct posts; [discriminate|]. intros _. rewrite length_app. simpl. lia.
Qed.

(** With a limit [N >= 1] the collector returns at most [N] records. *)
Lemma paginate_respects_limit (fuel : nat) :
  forall (N : Z) acc c w res w',
    Z.of_nat (List.length acc) < N ->
    paginate fetch fuel (Some N) acc c w = (Returns res, w') ->
    Z.of_nat (List.length res) <= N.
Proof.
  induction fuel as [|fuel IH]; intros N acc c w res w' Hacc Hrun; [discriminate|].
  destruct (fetch c w) as [o w1] eqn:Hpg.
  destruct o as [pg|e|];
    [| rewrite (paginate_step_failed _ _ _ _ _ _ _ Hpg) in Hrun; discriminate
     | rewrite (paginate_step_failed _ _ _ _ _ _ _ Hpg) in Hrun; discriminate].
  rewrite (paginate_step _ _ _ _ _ _ _ Hpg) in Hrun.
  destruct (is_empty (page_posts pg)); [injection Hrun as <- _; lia|].
  rewrite limit_reached_some in Hrun by lia.
  destruct (N <=? _) eqn:El.
  - injection Hrun as <- _. cbn [limit_of].
    rewrite slice_to_nonneg by lia. rewrite length_firstn. lia.
  - apply Z.leb_gt in El.
    destruct (negb (truthy (next_cursor pg))); [injection Hrun as <- _; lia|].
    eapply IH; [exact El | exact Hrun].
Qed.

(** With a limit [N >= 1], [N] pages are enough for the collector to end. *)
Lemma paginate_ends_within_limit (fuel : nat) :
  forall (N : Z) acc c w,
    (forall c w, fst (fetch c w) <> OutOfFuel) ->
    Z.of_nat (List.length acc) < N ->
    N - Z.of_nat (List.length acc) <= Z.of_nat fuel ->
    fst (paginate fetch fuel (Some N) acc c w) <> OutOfFuel.
Proof.
  induction fuel as [|fuel IH]; intros N acc c w Htotal Hacc Hfuel; [simpl in *; lia|].
  destruct (fetch c w) as [o w1] eqn:Hpg.
  destruct o as [pg|e|].
  - rewrite (paginate_step _ _ _ _ _ _ _ Hpg).
    destruct (is_empty (page_posts pg)) eqn:Ee; [discriminate|].
    rewrite limit_reached_some by lia.
    destruct (N <=? _) eqn:El; [discriminate|].
    apply Z.leb_gt in El.
    destruct (negb (truthy (next_cursor pg))); [discriminate|].
    apply IH; [exact Htotal | exact El|].
    pose proof (nonempty_grows acc _ Ee). lia.
  - rewrite (paginate_step_failed _ _ _ _ _ _ _ Hpg) by discriminate. discriminate.
  - specialize (Htotal c w). rewrite Hpg in Htotal. now destruct Htotal.
Qed.

(** Against a feed that always has another page, the collector without a
    limit never ends. *)
Lemma paginate_endless (fuel : nat) :
  forall mp acc c w,
    (forall c w, exists pg w',
       fetch c w = (Returns pg, w') /\
       page_posts pg <> [] /\ truthy (next_cursor pg) = true) ->
    (forall all : list Post, limit_reached mp all = false) ->
    fst (paginate fetch fuel mp acc c w) = OutOfFuel.
Proof.
  induction fuel as [|fuel IH]; intros mp acc c w Hfeed Hno; [reflexivity|].
  destruct (Hfeed c w) as [pg [w1 [Hpg [Hne Hcur]]]].
  rewrite (paginate_step _ _ _ _ _ _ _ Hpg), Hno, Hcur.
  destruct (is_empty (page_posts pg)) eqn:Ee;
    [apply is_empty_true in Ee; contradiction|].
  cbn [negb]. now apply IH.
Qed.

(** A negative limit ends the collection at the first page with records and
    cuts that many records off the end of what is held. *)
Lemma paginate_negative_limit fuel (N : Z) acc c w pg w' :
  N < 0 ->
  fetch c w = (Returns pg, w') ->
  page_posts pg <> [] ->
  paginate fetch (S fuel) (Some N) acc c w =
    (Returns (firstn (List.length (acc ++ page_posts pg) - Z.to_nat (- N))
                     (acc ++ page_posts pg)), w').
Proof.
  intros HN Hpg Hne. rewrite (paginate_step _ _ _ _ _ _ _ Hpg).
  destruct (is_empty (page_posts pg)) eqn:Ee;
    [apply is_empty_true in Ee; contradiction|].
  unfold limit_reached.
  destruct (N =? 0) eqn:E0; [apply Z.eqb_eq in E0; lia|].
  destruct (N <=? _) eqn:El; [|apply Z.leb_gt in El; lia].
  cbn [negb andb limit_of]. unfold slice_to.
  destruct (N <? 0) eqn:Elt; [|apply Z.ltb_ge in Elt; lia].
  assert (E : Z.to_nat (Z.max 0 (Z.of_nat (List.length (acc ++ page_posts pg)) + N))
              = (List.length (acc ++ page_posts pg) - Z.to_nat (- N))%nat) by lia.
  now rewrite E.
Qed.

Lemma fetched_chain_nonempty c w pgs w' :
  fetched_chain fetch c w pgs w' -> is_empty pgs = false.
Proof. now destruct 1. Qed.

(** What a halting chain of pages makes the collector return. *)
Lemma paginate_of_chain c w pgs w' :
  fetched_chain fetch c w pgs w' ->
  forall mp acc,
    halts mp acc pgs = true ->
    limit_reached mp acc = false \/ acc = [] ->
    paginate fetch (List.length pgs) mp acc c w =
      (Returns (truncated mp (acc ++ all_records pgs)), w').
Proof.
  induction 1 as [c w pg w' Hpg | c w pg w1 pgs w' Hpg Hcur Hch IH];
    intros mp acc Hhalt Hinv.
  - cbn [List.length]. rewrite (paginate_step _ _ _ _ _ _ _ Hpg).
    cbn [halts] in Hhalt. unfold goes_on in Hhalt.
    unfold all_records; cbn [map List.concat]. rewrite app_nil_r.
    destruct (is_empty (page_posts pg)) eqn:Ee.
    + apply is_empty_true in Ee. rewrite Ee, app_nil_r.
      unfold truncated. destruct Hinv as [-> | ->]; [reflexivity|].
      now rewrite slice_to_nil; destruct (limit_reached mp []).
    + unfold truncated.
      destruct (limit_reached mp (acc ++ page_posts pg)); [reflexivity|].
      simpl in Hhalt.
      destruct (truthy (next_cursor pg)); [discriminate | reflexivity].
  - cbn [List.length]. rewrite (paginate_step _ _ _ _ _ _ _ Hpg).
    cbn [halts] in Hhalt. unfold goes_on in Hhalt.
    rewrite (fetched_chain_nonempty _ _ _ _ Hch) in Hhalt.
    destruct (is_empty (page_posts pg)) eqn:Ee;
      [simpl in Hhalt; congruence|].
    destruct (limit_reached mp (acc ++ page_posts pg)) eqn:El;
      [simpl in Hhalt; congruence|].
    rewrite Hcur in *. simpl in Hhalt. simpl negb. cbv iota.
    rewrite all_records_cons, app_assoc.
    apply IH; [exact Hhalt | now left].
Qed.

(** Every returning run of the collector is a halting chain of pages. *)
Lemma chain_of_paginate fuel :
  forall mp acc c w res w',
    paginate fetch fuel mp acc c w = (Returns res, w') ->
    exists pgs,
      fetched_chain fetch c w pgs w' /\ halts mp acc pgs = true /\
      (limit_reached mp acc = false \/ acc = [] ->
       res = truncated mp (acc ++ all_records pgs)).
Proof.
  induction fuel as [|fuel IH]; intros mp acc c w res w' Hrun; [discriminate|].
  destruct (fetch c w) as [o w1] eqn:Hpg.
  destruct o as [pg|e|];
    [| rewrite (paginate_step_failed _ _ _ _ _ _ _ Hpg) in Hrun; discriminate
     | rewrite (paginate_step_failed _ _ _ _ _ _ _ Hpg) in Hrun; discriminate].
  destruct (goes_on mp acc pg) eqn:Hgo.
  - rewrite (paginate_step _ _ _ _ _ _ _ Hpg) in Hrun.
    pose proof Hgo as Hgo'. unfold goes_on in Hgo.
    apply andb_prop in Hgo. destruct Hgo as [Hgo Hcur].
    apply andb_prop in Hgo. destruct Hgo as [Hne Hlim].
    apply negb_true_iff in Hne, Hlim.
    rewrite Hne, Hlim, Hcur in Hrun. simpl in Hrun.
    apply IH in Hrun. destruct Hrun as [pgs [Hch [Hhalt Hres]]].
    exists (pg :: pgs). split; [|split].
    + eapply fetched_next; eassumption.
    + cbn [halts]. now rewrite Hgo'.
    + intros _. rewrite all_records_cons, app_assoc. apply Hres. now left.
  - assert (Hstop : paginate fetch (S fuel) mp acc c w = paginate fetch 1%nat mp acc c w).
    { rewrite !(paginate_step _ _ _ _ _ _ _ Hpg). unfold goes_on in Hgo.
      destruct (is_empty (page_posts pg)); [reflexivity|].
      destruct (limit_reached mp (acc ++ page_posts pg)); [reflexivity|].
      destruct (truthy (next_cursor pg)); [discriminate | reflexivity]. }
    rewrite Hstop in Hrun.
    assert (Hw : w' = w1).
    { rewrite (paginate_step _ _ _ _ _ _ _ Hpg) in Hrun. unfold goes_on in Hgo.
      destruct (is_empty (page_posts pg)); [now injection Hrun|].
      destruct (limit_reached mp (acc ++ page_posts pg)); [now injection Hrun|].
      destruct (truthy (next_cursor pg)); [discriminate | now injection Hrun]. }
    subst w'.
    assert (Hone : fetched_chain fetch c w [pg] w1) by now apply fetched_last.
    assert (Hh : halts mp acc [pg] = true) by (cbn [halts]; now rewrite Hgo).
    exists [pg]. split; [exact Hone | split; [exact Hh|]].
    intros Hinv.
    pose proof (paginate_of_chain _ _ _ _ Hone mp acc Hh Hinv) as Hl.
    cbn [List.length] in Hl. rewrite Hl in Hrun. now injection Hrun.
Qed.

Lemma paginate_is_concatenation (mp : option Z) (w w' : World) (res : list Post) :
  (exists fuel, paginate fetch fuel mp [] JNull w = (Returns res, w')) <->
  (exists pgs,
     fetched_chain fetch JNull w pgs w' /\ halts mp [] pgs = true /\
     res = truncated mp (all_records pgs)).
Proof.
  split.
  - intros [fuel Hrun]. apply chain_of_paginate in Hrun.
    destruct Hrun as [pgs [Hch [Hhalt Hres]]].
    exists pgs. split; [exact Hch | split; [exact Hhalt|]].
    apply Hres. now right.
  - intros [pgs [Hch [Hhalt ->]]]. exists (List.length pgs).
    apply (paginate_of_chain _ _ _ _ Hch mp [] Hhalt). now right.
Qed.

End PaginateFacts.

(** ** Both collectors *)

Section CollectorFacts.

Variable py : Runtime.
Variable net : nat -> HttpRequest -> net_outcome.
Variable fstr : json -> string.
Variable self : MoltbookAPI.

Lemma get_all_posts_loop_paginate (sort : string) (fuel : nat) :
  forall mp acc c w,
    get_all_posts_loop py net fstr self fuel sort mp acc c w =
    paginate (get_posts py net fstr self sort 100) fuel mp acc c w.
Proof.
  induction fuel as [|fuel IH]; intros mp acc c w; [reflexivity|].
  cbn [get_all_posts_loop paginate]. unfold bind at 1 3.
  destruct (get_posts py net fstr self sort 100 c w) as [[pg|e|] w1]; try reflexivity.
  destruct (is_empty (page_posts pg)); [reflexivity|].
  destruct (limit_reached mp (acc ++ page_posts pg)); [reflexivity|].
  destruct (negb (truthy (next_cursor pg))); [reflexivity|].
  unfold bind, slept. apply IH.
Qed.

Lemma get_all_submolt_posts_loop_paginate (name sort : string) (fuel : nat) :
  forall mp acc c w,
    get_all_submolt_posts_loop py net fstr self fuel name sort mp acc c w =
    paginate (get_submolt_posts py net fstr self name sort 100) fuel mp acc c w.
Proof.
  induction fuel as [|fuel IH]; intros mp acc c w; [reflexivity|].
  cbn [get_all_submolt_posts_loop paginate]. unfold bind at 1 3.
  destruct (get_submolt_posts py net fstr self name sort 100 c w) as [[pg|e|] w1];
    try reflexivity.
  destruct (is_empty (page_posts pg)); [reflexivity|].
  destruct (limit_reached mp (acc ++ page_posts pg)); [reflexivity|].
  destruct (negb (truthy (next_cursor pg))); [reflexivity|].
  unfold bind, slept. apply IH.
Qed.

Lemma request_fuel_free (method url : string) (w : World) :
  fst (_request py net self method url w) <> OutOfFuel.
Proof.
  unfold _request, bind, range.
  destruct (request_loop py net self method url
              (map Z.of_nat (seq 0 (Z.to_nat (max_retries self)))) None None w)
    as [[ex|e|] w1] eqn:Hloop.
  - destruct ex as [r|le rv]; [discriminate|].
    destruct le; [discriminate|]. destruct rv; discriminate.
  - discriminate.
  - exfalso. eapply request_loop_fuel_free; eassumption.
Qed.

Lemma page_of_response_fuel_free (r : Response) (w : World) :
  fst (page_of_response self r w) <> OutOfFuel.
Proof.
  unfold page_of_response.
  destruct ((status_code r =? 401) && negb (key_given (api_key self)));
    [discriminate|].
  unfold bind, raise_for_status, json_of, lift.
  destruct ((200 <=? status_code r) && (status_code r <=? 299)); [|discriminate].
  cbn. destruct (body r) as [data|]; [|discriminate].
  cbn. destruct (parse_posts data); [discriminate|].
  cbn. destruct (dict_get data "next_cursor" JNull); discriminate.
Qed.

Lemma get_posts_fuel_free (sort : string) (limit : Z) (c : json) (w : World) :
  fst (get_posts py net fstr self sort limit c w) <> OutOfFuel.
Proof.
  rewrite get_posts_unfold. unfold bind at 1.
  pose proof (request_fuel_free "GET" (posts_url fstr sort limit c) w) as Hreq.
  destruct (_request py net self "GET" (posts_url fstr sort limit c) w)
    as [[r|e|] w1]; [apply page_of_response_fuel_free | discriminate | now destruct Hreq].
Qed.

Lemma get_submolt_posts_fuel_free (name sort : string) (limit : Z) (c : json)
    (w : World) :
  fst (get_submolt_posts py net fstr self name sort limit c w) <> OutOfFuel.
Proof.
  rewrite get_submolt_posts_unfold. unfold bind at 1.
  pose proof (request_fuel_free "GET" (submolt_feed_url fstr name sort limit c) w)
    as Hreq.
  destruct (_request py net self "GET" (submolt_feed_url fstr name sort limit c) w)
    as [[r|e|] w1]; [apply page_of_response_fuel_free | discriminate | now destruct Hreq].
Qed.

(** X16. With [max_posts = N >= 1] neither collector ever returns more than
    [N] records, whatever the service sends. *)
Theorem collectors_respect_limit (N : Z) (fuel : nat) (sort : string)
    (w : World) (res : list Post) (w' : World) :
  1 <= N ->
  (get_all_posts py net fstr self fuel sort (Some N) w = (Returns res, w') ->
   Z.of_nat (List.length res) <= N) /\
  (forall name,
     get_all_submolt_posts py net fstr self fuel name sort (Some N) w = (Returns res, w') ->
     Z.of_nat (List.length res) <= N).
Proof.
  intros HN. unfold get_all_posts, get_all_submolt_posts. split.
  - rewrite get_all_posts_loop_paginate.
    apply paginate_respects_limit. simpl. lia.
  - intros name. rewrite get_all_submolt_posts_loop_paginate.
    apply paginate_respects_limit. simpl. lia.
Qed.

(** X17. With [max_posts = N >= 1] both collectors end after at most [N]
    pages, whatever the service sends: every page that does not end the
    collection adds a record, so fuel for [N] pages is never used up. *)
Theorem collectors_end_within_limit (N : Z) (fuel : nat) (sort : string) (w : World) :
  1 <= N ->
  N <= Z.of_nat fuel ->
  fst (get_all_posts py net fstr self fuel sort (Some N) w) <> OutOfFuel /\
  (forall name,
     fst (get_all_submolt_posts py net fstr self fuel name sort (Some N) w) <> OutOfFuel).
Proof.
  intros HN Hfuel. unfold get_all_posts, get_all_submolt_posts. split.
  - rewrite get_all_posts_loop_paginate.
    apply paginate_ends_within_limit; [apply get_posts_fuel_free | simpl; lia..].
  - intros name. rewrite get_all_submolt_posts_loop_paginate.
    apply paginate_ends_within_limit;
      [apply get_submolt_posts_fuel_free | simpl; lia..].
Qed.

(** X18. Nothing but the feed ends a collection without a limit: against a
    service whose every page has records and a cursor, [get_all_posts] with
    [max_posts] [None] or [0] asks for page after page and never returns. *)
Theorem endless_feed_never_ends (sort : string) :
  (forall c w, exists pg w',
     get_posts py net fstr self sort 100 c w = (Returns pg, w') /\
     page_posts pg <> [] /\ truthy (next_cursor pg) = true) ->
  forall fuel w,
    fst (get_all_posts py net fstr self fuel sort None w) = OutOfFuel /\
    fst (get_all_posts py net fstr self fuel sort (Some 0) w) = OutOfFuel.
Proof.
  intros Hfeed fuel w. unfold get_all_posts.
  rewrite !get_all_posts_loop_paginate. split.
  - apply paginate_endless; [exact Hfeed | reflexivity].
  - apply paginate_endless; [exact Hfeed | reflexivity].
Qed.

(** X19. [get_all_submolt_posts] returns [res] exactly when the pages that
    [get_submolt_posts] fetched along the cursors form a chain at whose last
    page the collector stops, and [res] is the concatenation of their
    record lists in page order, cut at [max_posts] where that was reached. *)
Theorem submolt_collection_is_concatenation (name sort : string) (mp : option Z)
    (w w' : World) (res : list Post) :
  (exists fuel,
     get_all_submolt_posts py net fstr self fuel name sort mp w = (Returns res, w')) <->
  (exists pgs,
     fetched_chain (get_submolt_posts py net fstr self name sort 100) JNull w pgs w' /\
     halts mp [] pgs = true /\
     res = truncated mp (all_records pgs)).
Proof.
  rewrite <- paginate_is_concatenation. unfold get_all_submolt_posts.
  split; intros [fuel H]; exists fuel.
  - now rewrite <- get_all_submolt_posts_loop_paginate.
  - now rewrite get_all_submolt_posts_loop_paginate.
Qed.

(** X20. A negative [max_posts = N] is a limit that the first page with
    records always reaches: the collection ends with that page and the slice
    [all_posts[:N]] drops its last [-N] records (all of them if it has no
    more). *)
Theorem negative_limit_cuts_first_page (N : Z) (fuel : nat) (sort : string)
    (w : World) (pg : PostsPage) (w' : World) :
  N < 0 ->
  page_posts pg <> [] ->
  (get_posts py net fstr self sort 100 JNull w = (Returns pg, w') ->
   get_all_posts py net fstr self (S fuel) sort (Some N) w =
     (Returns (firstn (List.length (page_posts pg) - Z.to_nat (- N)) (page_posts pg)),
      w')) /\
  (forall name,
     get_submolt_posts py net fstr self name sort 100 JNull w = (Returns pg, w') ->
     get_all_submolt_posts py net fstr self (S fuel) name sort (Some N) w =
       (Returns (firstn (List.length (page_posts pg) - Z.to_nat (- N)) (page_posts pg)),
        w')).
Proof.
  intros HN Hne. unfold get_all_posts, get_all_submolt_posts. split.
  - intros Hpg. rewrite get_all_posts_loop_paginate.
    now rewrite (paginate_negative_limit _ fuel N [] JNull w pg w' HN Hpg Hne).
  - intros name Hpg. rewrite get_all_submolt_posts_loop_paginate.
    now rewrite (paginate_negative_limit _ fuel N [] JNull w pg w' HN Hpg Hne).
Qed.

End CollectorFacts.

(** * The theorems at work on the fixtures *)

Import Fixtures.


(** The three pages of the fixture feed, as [get_posts] fetches them. *)
Lemma feed_chain :
  exists w', page_chain plain_runtime feed fstr default_api "new" JNull w0 feed_pages w'.
Proof.
  eexists. unfold feed_pages.
  eapply chain_next; [vm_compute; reflexivity | reflexivity |].
  eapply chain_next; [vm_compute; reflexivity | reflexivity |].
  eapply chain_last. vm_compute. reflexivity.
Defined.


(** C2 as stated fails: the first attempt times out, the second and last is
    answered 503, and the call raises the captured timeout instead of
    returning that response. *)
Lemma request_timeout_counterexample :
  attempt_outcome (script [TimedOut 7; Responded busy]) (init None 2 2)
                  "GET" "u" w0 0 = TimedOut 7 /\
  attempt_outcome (script [TimedOut 7; Responded busy]) (init None 2 2)
                  "GET" "u" w0 1 = Responded busy /\
  is_retryable (status_code busy) = true /\
  fst (_request plain_runtime (script [TimedOut 7; Responded busy]) (init None 2 2)
                "GET" "u" w0) = Raises (TimeoutException 7) /\
  fst (_request plain_runtime (script [TimedOut 7; Responded busy]) (init None 2 2)
                "GET" "u" w0) <> Returns busy.
Proof.
  repeat split; try reflexivity. vm_compute. discriminate.
Qed.

Lemma request_raises_timeout_witness :
  (forall k, (k < Z.to_nat (max_retries (init None 3 2)))%nat ->
     exists q, backoff_outcome plain_runtime (init None 3 2) k = inr q) /\
  (1 < Z.to_nat (max_retries (init None 3 2)))%nat /\
  attempt_outcome (script [Responded busy; TimedOut 7; Responded limited])
                  (init None 3 2) "GET" "u" w0 1 = TimedOut 7 /\
  fst (_request plain_runtime (script [Responded busy; TimedOut 7; Responded limited])
                (init None 3 2) "GET" "u" w0) = Raises (TimeoutException 7) /\
  last_timeout (attempts_of (script [Responded busy; TimedOut 7; Responded limited])
                            (init None 3 2)
                            "GET" "u" w0 (Z.to_nat (max_retries (init None 3 2))))
    = Some 7%nat.
Proof.
  assert (Hs : forall k, (k < Z.to_nat (max_retries (init None 3 2)))%nat ->
     exists q, backoff_outcome plain_runtime (init None 3 2) k = inr q).
  { intros k Hk. destruct k as [|[|[|k]]];
      try (eexists; reflexivity). simpl in Hk. lia. }
  assert (Hj : (1 < Z.to_nat (max_retries (init None 3 2)))%nat) by (simpl; lia).
  assert (Hrun :
    fst (_request plain_runtime (script [Responded busy; TimedOut 7; Responded limited])
                  (init None 3 2) "GET" "u" w0) = Raises (TimeoutException 7)).
  { apply (proj2 (request_raises_timeout_iff plain_runtime
                    (script [Responded busy; TimedOut 7; Responded limited])
                    (init None 3 2) "GET" "u" w0 7 Hs) 1%nat Hj).
    - intros k Hk. destruct k as [|k]; [reflexivity | lia].
    - reflexivity.
    - intros k Hk. simpl in Hk. destruct k as [|[|[|k]]]; try lia. reflexivity. }
  split; [exact Hs|]. split; [exact Hj|]. split; [reflexivity|].
  split; [exact Hrun|].
  exact (proj2 (proj1 (proj1 (request_raises_timeout_iff plain_runtime
                           (script [Responded busy; TimedOut 7; Responded limited])
                           (init None 3 2) "GET" "u" w0 7 Hs)) Hrun)).
Defined.

(** C3 as stated fails at [N = 0]: five records are there, and all five are
    returned. *)
Lemma limit_zero_counterexample :
  exists res w',
    get_all_posts plain_runtime feed fstr default_api 3 "new" (Some 0) w0 = (Returns res, w') /\
    res = all_records feed_pages /\
    List.length res = 5%nat /\
    Z.of_nat (List.length res) <> 0.
Proof.
  eexists. eexists. split; [vm_compute; reflexivity|].
  split; [reflexivity|]. split; [reflexivity|]. discriminate.
Qed.

Lemma limit_returns_exactly_n_witness :
  1 <= 3 /\
  Forall (fun pg => page_posts pg <> []) feed_pages /\
  3 <= Z.of_nat (List.length (all_records feed_pages)) /\
  exists w' k w'',
    page_chain plain_runtime feed fstr default_api "new" JNull w0 feed_pages w' /\
    get_all_posts plain_runtime feed fstr default_api k "new" (Some 3) w0 =
      (Returns [feed_post "p1"; feed_post "p2"; feed_post "p3"], w'') /\
    k = 2%nat.
Proof.
  assert (H1 : 1 <= 3) by lia.
  assert (H2 : Forall (fun pg => page_posts pg <> []) feed_pages)
    by (repeat constructor; discriminate).
  assert (H3 : 3 <= Z.of_nat (List.length (all_records feed_pages)))
    by (simpl; lia).
  split; [exact H1|]. split; [exact H2|]. split; [exact H3|].
  destruct feed_chain as [w' Hch]. exists w'.
  destruct (limit_returns_exactly_n plain_runtime feed fstr default_api "new" 3 feed_pages
              w0 w' H1 Hch H2 H3)
    as (k & w'' & Hk & _ & Hrun & _ & _ & Hprev & Hnow).
  exists k, w''. split; [exact Hch|]. split; [exact Hrun|].
  destruct k as [|[|[|[|k]]]]; simpl in Hk, Hprev, Hnow; lia.
Defined.

Lemma collected_is_concatenation_witness :
  exists fuel w',
    get_all_posts plain_runtime feed fstr default_api fuel "new" None w0 =
      (Returns (all_records feed_pages), w').
Proof.
  destruct feed_chain as [w' Hch].
  destruct (proj2 (collected_is_concatenation plain_runtime feed fstr default_api "new" None
                     w0 w' (all_records feed_pages))) as [fuel Hrun].
  - exists feed_pages. split; [exact Hch|]. split; reflexivity.
  - exists fuel, w'. exact Hrun.
Defined.

Lemma zero_limit_is_no_limit_witness :
  Forall (fun pg => ends_feed pg = false) (firstn 2 feed_pages) /\
  ends_feed (mkPage [feed_post "p5"] JNull) = true /\
  exists w',
    get_all_posts plain_runtime feed fstr default_api 3 "new" (Some 0) w0 =
      (Returns [feed_post "p1"; feed_post "p2"; feed_post "p3"; feed_post "p4";
                feed_post "p5"], w') /\
    get_all_posts plain_runtime feed fstr default_api 3 "new" None w0 =
      (Returns [feed_post "p1"; feed_post "p2"; feed_post "p3"; feed_post "p4";
                feed_post "p5"], w').
Proof.
  assert (Hfront : Forall (fun pg => ends_feed pg = false) (firstn 2 feed_pages))
    by (repeat constructor).
  assert (Hfinal : ends_feed (mkPage [feed_post "p5"] JNull) = true) by reflexivity.
  split; [exact Hfront|]. split; [exact Hfinal|].
  destruct feed_chain as [w' Hch]. exists w'.
  pose proof (proj1 (proj2 (zero_limit_is_no_limit plain_runtime feed fstr default_api
                              "new" w0))
                (firstn 2 feed_pages) (mkPage [feed_post "p5"] JNull) w'
                Hch Hfront Hfinal) as Hrun.
  split; [exact Hrun|].
  rewrite <- (proj1 (zero_limit_is_no_limit plain_runtime feed fstr default_api
                       "new" w0) 3%nat).
  exact Hrun.
Defined.

Lemma unauthorized_gives_empty_page_witness :
  exists w',
    _request plain_runtime (script [Responded denied]) default_api "GET"
             (posts_url fstr "new" 100 JNull) w0 = (Returns denied, w') /\
    status_code denied = 401 /\
    key_given (api_key default_api) = false /\
    get_posts plain_runtime (script [Responded denied]) fstr default_api "new" 100 JNull w0 =
      (Returns (mkPage [] JNull), w') /\
    get_all_posts plain_runtime (script [Responded denied]) fstr default_api 1 "new" None w0 =
      (Returns [], w').
Proof.
  eexists.
  assert (H1 : _request plain_runtime (script [Responded denied]) default_api "GET"
                 (posts_url fstr "new" 100 JNull) w0 = (Returns denied, _))
    by (vm_compute; reflexivity).
  assert (H2 : status_code denied = 401) by reflexivity.
  assert (H3 : key_given (api_key default_api) = false) by reflexivity.
  split; [exact H1|]. split; [exact H2|]. split; [exact H3|].
  destruct (unauthorized_gives_empty_page plain_runtime (script [Responded denied]) fstr
              default_api "new" 100 JNull w0 denied _ H1 H2 H3) as [Hget Hloop].
  split; [exact Hget|]. exact (Hloop eq_refl 0%nat None []).
Defined.

Lemma empty_page_stops_witness :
  exists pg w',
    get_posts plain_runtime empty_feed fstr default_api "new" 100 JNull w0 = (Returns pg, w') /\
    page_posts pg = [] /\
    next_cursor pg = JStr "p9" /\
    get_all_posts plain_runtime empty_feed fstr default_api 5 "new" None w0 = (Returns [], w') /\
    calls w' = 1%nat.
Proof.
  eexists. eexists.
  assert (H1 : get_posts plain_runtime empty_feed fstr default_api "new" 100 JNull w0 =
               (Returns (mkPage [] (JStr "p9")), _)) by (vm_compute; reflexivity).
  split; [exact H1|]. split; [reflexivity|]. split; [reflexivity|].
  split; [|reflexivity].
  exact (proj2 (empty_page_stops plain_runtime empty_feed fstr default_api "new" 4 None []
                  JNull w0 _ _ H1 eq_refl) eq_refl).
Defined.

Lemma absent_cursor_stops_witness :
  exists w',
    get_posts plain_runtime feed fstr default_api "new" 100 (JStr "p4") w0 =
      (Returns (mkPage [feed_post "p5"] JNull), w') /\
    get_all_posts_loop plain_runtime feed fstr default_api 5 "new" None [feed_post "p4"]
                       (JStr "p4") w0 =
      (Returns [feed_post "p4"; feed_post "p5"], w') /\
    calls w' = 1%nat.
Proof.
  eexists.
  assert (H1 : get_posts plain_runtime feed fstr default_api "new" 100 (JStr "p4") w0 =
               (Returns (mkPage [feed_post "p5"] JNull), _))
    by (vm_compute; reflexivity).
  split; [exact H1|]. split; [|reflexivity].
  refine (proj2 (absent_cursor_stops plain_runtime feed fstr default_api "new" 4 None
                   [feed_post "p4"] (JStr "p4") w0 _ _ H1 _ eq_refl) eq_refl).
  discriminate.
Defined.

Lemma fallback_return_is_bound_witness :
  1 <= max_retries (init None 2 2) /\
  (exists w',
     request_loop plain_runtime (script [Responded busy; Responded limited]) (init None 2 2)
                  "GET" "u" (range (max_retries (init None 2 2))) None None w0 =
       (Returns (LoopDone None (Some limited)), w')) /\
  (exists r, Some limited = Some r /\
     attempt_outcome (script [Responded busy; Responded limited]) (init None 2 2)
                     "GET" "u" w0 (Z.to_nat (max_retries (init None 2 2)) - 1)
       = Responded r) /\
  max_retries (init None 0 2) <= 0 /\
  _request plain_runtime (script [Responded busy]) (init None 0 2) "GET" "u" w0 =
    (Raises (UnboundLocalError "r"), w0).
Proof.
  assert (H1 : 1 <= max_retries (init None 2 2)) by (simpl; lia).
  assert (H0 : max_retries (init None 0 2) <= 0) by (simpl; lia).
  assert (Hrun : exists w',
     request_loop plain_runtime (script [Responded busy; Responded limited]) (init None 2 2)
                  "GET" "u" (range (max_retries (init None 2 2))) None None w0 =
       (Returns (LoopDone None (Some limited)), w'))
    by (eexists; vm_compute; reflexivity).
  split; [exact H1|]. split; [exact Hrun|]. split; [|split; [exact H0|]].
  - destruct Hrun as [w' Hrun].
    exact (proj1 (proj1 (fallback_return_is_bound plain_runtime
                           (script [Responded busy; Responded limited])
                           (init None 2 2) "GET" "u" w0) H1) _ _ Hrun).
  - exact (proj2 (fallback_return_is_bound plain_runtime (script [Responded busy])
                    (init None 0 2) "GET" "u" w0) H0).
Defined.

Lemma comments_carry_post_id_witness :
  exists cs w',
    get_post_comments plain_runtime comments_net default_api "the-post" "top" w0 =
      (Returns cs, w') /\
    List.length cs = 2%nat /\
    Forall (fun cm => comment_post_id cm = "the-post") cs.
Proof.
  eexists. eexists.
  assert (H1 : get_post_comments plain_runtime comments_net default_api "the-post" "top" w0 =
               (Returns _, _)) by (vm_compute; reflexivity).
  split; [exact H1|]. split; [reflexivity|].
  exact (comments_carry_post_id plain_runtime comments_net default_api "the-post" "top" w0
           _ _ H1).
Defined.


Lemma request_returns_first_final_response_witness :
  (forall j, (j < 2)%nat ->
     backoff_outcome plain_runtime default_api j
       = inr (2 * inject_Z (Z.of_nat j + 1))%Q) /\
  (2 < Z.to_nat (max_retries default_api))%nat /\
  (forall j, (j < 2)%nat ->
     transient (attempt_outcome (script [Responded busy; TimedOut 1; Responded fine])
                                default_api "GET" "u" w0 j) = true) /\
  is_retryable (status_code fine) = false /\
  exists w',
    _request plain_runtime (script [Responded busy; TimedOut 1; Responded fine])
             default_api "GET" "u" w0 = (Returns fine, w') /\
    calls w' = 3%nat /\
    sleeps (log w') = [2 * 1; 2 * 2]%Q.
Proof.
  assert (Hd : forall j, (j < 2)%nat ->
     backoff_outcome plain_runtime default_api j
       = inr (2 * inject_Z (Z.of_nat j + 1))%Q).
  { intros j Hj. destruct j as [|[|j]]; try reflexivity. lia. }
  assert (Hk : (2 < Z.to_nat (max_retries default_api))%nat) by (simpl; lia).
  assert (Hb : forall j, (j < 2)%nat ->
     transient (attempt_outcome (script [Responded busy; TimedOut 1; Responded fine])
                                default_api "GET" "u" w0 j) = true).
  { intros j Hj. destruct j as [|[|j]]; try reflexivity. lia. }
  split; [exact Hd|]. split; [exact Hk|]. split; [exact Hb|]. split; [reflexivity|].
  eexists. split.
  - exact (request_returns_first_final_response plain_runtime
             (script [Responded busy; TimedOut 1; Responded fine])
             default_api "GET" "u" (fun j => 2 * inject_Z (Z.of_nat j + 1))%Q
             w0 2 fine Hd Hk Hb eq_refl eq_refl).
  - split; reflexivity.
Defined.

Lemma request_raises_transport_error_witness :
  (forall j, (j < 1)%nat ->
     backoff_outcome plain_runtime default_api j
       = inr (2 * inject_Z (Z.of_nat j + 1))%Q) /\
  (1 < Z.to_nat (max_retries default_api))%nat /\
  exists w',
    _request plain_runtime (script [Responded busy; NetFailed 5; Responded fine])
             default_api "GET" "u" w0 = (Raises (TransportError 5), w') /\
    calls w' = 2%nat.
Proof.
  assert (Hd : forall j, (j < 1)%nat ->
     backoff_outcome plain_runtime default_api j
       = inr (2 * inject_Z (Z.of_nat j + 1))%Q).
  { intros j Hj. destruct j as [|j]; [reflexivity | lia]. }
  assert (Hk : (1 < Z.to_nat (max_retries default_api))%nat) by (simpl; lia).
  split; [exact Hd|]. split; [exact Hk|].
  eexists. split.
  - refine (request_raises_transport_error plain_runtime
              (script [Responded busy; NetFailed 5; Responded fine])
              default_api "GET" "u" (fun j => 2 * inject_Z (Z.of_nat j + 1))%Q
              w0 1 5 Hd Hk _ eq_refl).
    intros j Hj. destruct j as [|j]; [reflexivity | lia].
  - reflexivity.
Defined.

Lemma request_returns_a_served_response_witness :
  exists w' k,
    _request plain_runtime (script [TimedOut 1; Responded fine]) default_api "GET" "u" w0
      = (Returns fine, w') /\
    attempt_outcome (script [TimedOut 1; Responded fine]) default_api "GET" "u" w0 k
      = Responded fine /\
    calls w' = (calls w0 + S k)%nat.
Proof.
  eexists.
  assert (Hrun : _request plain_runtime (script [TimedOut 1; Responded fine]) default_api
                          "GET" "u" w0 = (Returns fine, _))
    by (vm_compute; reflexivity).
  destruct (request_returns_a_served_response plain_runtime _ _ _ _ _ _ _ Hrun)
    as [k [_ [Hat [Hc _]]]].
  exists k. split; [exact Hrun|]. split; [exact Hat | exact Hc].
Defined.

Lemma refused_backoff_is_raised_witness :
  1 <= max_retries (init None 3 (-2)) /\
  transient (attempt_outcome (script [Responded busy; Responded fine])
                             (init None 3 (-2)) "GET" "u" w0 0) = true /\
  backoff_outcome plain_runtime (init None 3 (-2)) 0 = inl ValueError /\
  _request plain_runtime (script [Responded busy; Responded fine])
           (init None 3 (-2)) "GET" "u" w0
    = (Raises ValueError, after_request (init None 3 (-2)) "GET" "u" w0) /\
  backoff_outcome plain_runtime (init None 3 10000000000) 0 = inl OverflowError /\
  fst (_request plain_runtime (script [TimedOut 1; Responded fine])
                (init None 3 10000000000) "GET" "u" w0) = Raises OverflowError.
Proof.
  assert (Hn : 1 <= max_retries (init None 3 (-2))) by (simpl; lia).
  assert (Hn' : 1 <= max_retries (init None 3 10000000000)) by (simpl; lia).
  split; [exact Hn|]. split; [reflexivity|]. split; [reflexivity|].
  split; [|split; [reflexivity|]].
  - exact (proj1 (refused_backoff_is_raised plain_runtime
                    (script [Responded busy; Responded fine]) (init None 3 (-2))
                    "GET" "u" w0 ValueError Hn eq_refl eq_refl)).
  - now rewrite (proj1 (refused_backoff_is_raised plain_runtime
                    (script [TimedOut 1; Responded fine]) (init None 3 10000000000)
                    "GET" "u" w0 OverflowError Hn' eq_refl eq_refl)).
Defined.

Lemma requests_carry_authorization_witness :
  exists q,
    In q (requests (events_since w0
            (snd (_request plain_runtime (script [Responded fine]) (init (Some "k3y") 3 2)
                           "GET" "u" w0)))) /\
    req_headers q = DEFAULT_HEADERS ++ [("Authorization", "Bearer k3y"%string)].
Proof.
  eexists.
  assert (Hin : In _ (requests (events_since w0
            (snd (_request plain_runtime (script [Responded fine]) (init (Some "k3y") 3 2)
                           "GET" "u" w0)))))
    by (vm_compute; left; reflexivity).
  split; [exact Hin|].
  exact (proj2 (proj2 (requests_carry_authorization plain_runtime _ _ _ _ _ _ _ _ Hin))).
Defined.

Lemma get_posts_parses_page_witness :
  exists w',
    _request plain_runtime (fun _ _ => torn_page) default_api "GET"
             (posts_url fstr "new" 100 JNull) w0
      = (Returns (mkResponse 200 (Some (JObj
           [("posts", JArr [post_json "p1"; JObj [("id", JStr "p2")]; post_json "p3"])]))),
         w') /\
    build_post (post_json "p1") = inr (feed_post "p1") /\
    build_post (JObj [("id", JStr "p2")]) = inl (KeyError "title") /\
    get_posts plain_runtime (fun _ _ => torn_page) fstr default_api "new" 100 JNull w0
      = (Raises (KeyError "title"), w').
Proof.
  eexists.
  assert (Hreq : _request plain_runtime (fun _ _ => torn_page) default_api "GET"
             (posts_url fstr "new" 100 JNull) w0
      = (Returns (mkResponse 200 (Some (JObj
           [("posts", JArr [post_json "p1"; JObj [("id", JStr "p2")]; post_json "p3"])]))),
         _)) by (vm_compute; reflexivity).
  split; [exact Hreq|]. split; [reflexivity|]. split; [reflexivity|].
  refine (proj2 (get_posts_parses_page plain_runtime _ fstr default_api "new" 100 JNull w0 _ _ _ _
                   Hreq eq_refl eq_refl eq_refl)
            [post_json "p1"] (JObj [("id", JStr "p2")]) [post_json "p3"]
            (KeyError "title") eq_refl _ eq_refl).
  repeat constructor. now exists (feed_post "p1").
Defined.

Lemma post_endpoints_raise_status_error_witness :
  is_success (status_code denied) = false /\
  (status_code denied =? 401) && negb (key_given (api_key keyed_api)) = false /\
  exists w',
    _request plain_runtime (script [Responded denied]) keyed_api "GET"
             (posts_url fstr "new" 100 JNull) w0 = (Returns denied, w') /\
    get_posts plain_runtime (script [Responded denied]) fstr keyed_api "new" 100 JNull w0
      = (Raises (HTTPStatusError 401), w').
Proof.
  split; [reflexivity|]. split; [reflexivity|].
  eexists.
  assert (Hreq : _request plain_runtime (script [Responded denied]) keyed_api "GET"
             (posts_url fstr "new" 100 JNull) w0 = (Returns denied, _))
    by (vm_compute; reflexivity).
  split; [exact Hreq|].
  exact (proj1 (post_endpoints_raise_status_error plain_runtime (script [Responded denied]) fstr
                  keyed_api w0 denied _ eq_refl eq_refl) "new" 100 JNull Hreq).
Defined.

Lemma open_endpoints_raise_status_error_witness :
  is_success (status_code denied) = false /\
  key_given (api_key default_api) = false /\
  exists w',
    _request plain_runtime (script [Responded denied]) default_api "GET"
             (API_BASE ++ "/submolts")%string w0 = (Returns denied, w') /\
    get_submolts plain_runtime (script [Responded denied]) default_api w0
      = (Raises (HTTPStatusError 401), w') /\
    get_stats plain_runtime (script [Responded denied]) default_api w0
      = (Raises (HTTPStatusError 401), w').
Proof.
  split; [reflexivity|]. split; [reflexivity|].
  eexists.
  assert (Hreq : _request plain_runtime (script [Responded denied]) default_api "GET"
             (API_BASE ++ "/submolts")%string w0 = (Returns denied, _))
    by (vm_compute; reflexivity).
  split; [exact Hreq|].
  exact (proj1 (open_endpoints_raise_status_error plain_runtime (script [Responded denied])
                  default_api w0 denied _ eq_refl) Hreq).
Defined.

Lemma unauthorized_degrades_quietly_witness :
  status_code denied = 401 /\
  key_given (api_key default_api) = false /\
  exists w',
    _request plain_runtime (script [Responded denied]) default_api "GET"
             (comments_url "the-post" "top") w0 = (Returns denied, w') /\
    get_post_comments plain_runtime (script [Responded denied]) default_api "the-post" "top" w0
      = (Returns [], w').
Proof.
  split; [reflexivity|]. split; [reflexivity|].
  eexists.
  assert (Hreq : _request plain_runtime (script [Responded denied]) default_api "GET"
             (comments_url "the-post" "top") w0 = (Returns denied, _))
    by (vm_compute; reflexivity).
  split; [exact Hreq|].
  exact (proj1 (unauthorized_degrades_quietly plain_runtime (script [Responded denied]) fstr
                  default_api w0 denied _ eq_refl eq_refl) "the-post" "top" Hreq).
Defined.


Lemma get_submolts_is_strict_witness :
  first_missing required_submolt_keys whole_submolt = None /\
  first_missing required_submolt_keys torn_submolt = Some "description"%string /\
  exists w',
    _request plain_runtime (fun _ _ => ok (JObj (submolts_body [JObj whole_submolt; JObj torn_submolt])))
             default_api "GET" (API_BASE ++ "/submolts")%string w0
      = (Returns (mkResponse 200
           (Some (JObj (submolts_body [JObj whole_submolt; JObj torn_submolt])))), w') /\
    get_submolts plain_runtime (fun _ _ => ok (JObj (submolts_body [JObj whole_submolt; JObj torn_submolt])))
                 default_api w0
      = (Raises (KeyError "description"), w').
Proof.
  split; [reflexivity|]. split; [reflexivity|].
  eexists.
  assert (Hreq :
    _request plain_runtime (fun _ _ => ok (JObj (submolts_body [JObj whole_submolt; JObj torn_submolt])))
             default_api "GET" (API_BASE ++ "/submolts")%string w0
      = (Returns (mkResponse 200
           (Some (JObj (submolts_body [JObj whole_submolt; JObj torn_submolt])))), _))
    by (vm_compute; reflexivity).
  split; [exact Hreq|].
  refine (proj2 (get_submolts_is_strict plain_runtime _ default_api w0 _ _ _ _
                   Hreq eq_refl eq_refl eq_refl)
            [whole_submolt] torn_submolt [] "description"%string eq_refl _ eq_refl).
  repeat constructor.
Defined.

Lemma get_leaderboard_is_lenient_witness :
  exists w',
    _request plain_runtime (fun _ _ => ok (JObj leaderboard_body)) default_api "GET"
             (API_BASE ++ "/agents/leaderboard")%string w0
      = (Returns (mkResponse 200 (Some (JObj leaderboard_body))), w') /\
    get_leaderboard plain_runtime (fun _ _ => ok (JObj leaderboard_body)) default_api w0
      = (Returns [mkAgent (JStr "a1") (JStr "pincer") (JInt 0) (JInt 0) (JInt 9);
                  mkAgent (JStr "") (JStr "unknown") (JInt 0) (JInt 0) (JInt 0)],
         w').
Proof.
  eexists.
  assert (Hreq : _request plain_runtime (fun _ _ => ok (JObj leaderboard_body)) default_api "GET"
             (API_BASE ++ "/agents/leaderboard")%string w0
      = (Returns (mkResponse 200 (Some (JObj leaderboard_body))), _))
    by (vm_compute; reflexivity).
  split; [exact Hreq|].
  exact (proj1 (get_leaderboard_is_lenient plain_runtime _ default_api w0) _ _ leaderboard_body
           [[("id", JStr "a1"); ("name", JStr "pincer"); ("score", JInt 9)]; []]
           Hreq eq_refl eq_refl eq_refl).
Defined.

Lemma get_stats_reads_counters_witness :
  exists w',
    _request plain_runtime (fun _ _ => ok (JObj (submolts_body []))) default_api "GET"
             (API_BASE ++ "/submolts")%string w0
      = (Returns (mkResponse 200 (Some (JObj (submolts_body [])))), w') /\
    get_stats plain_runtime (fun _ _ => ok (JObj (submolts_body []))) default_api w0
      = (Returns (mkStats (JInt 2) (JInt 40) (JInt 0)), w').
Proof.
  eexists.
  assert (Hreq : _request plain_runtime (fun _ _ => ok (JObj (submolts_body []))) default_api "GET"
             (API_BASE ++ "/submolts")%string w0
      = (Returns (mkResponse 200 (Some (JObj (submolts_body [])))), _))
    by (vm_compute; reflexivity).
  split; [exact Hreq|].
  exact (proj2 (get_stats_reads_counters plain_runtime _ default_api w0) _ _ (submolts_body [])
           Hreq eq_refl eq_refl).
Defined.

Lemma collectors_respect_limit_witness :
  1 <= 3 /\
  exists res w',
    get_all_posts plain_runtime feed fstr default_api 5 "new" (Some 3) w0 = (Returns res, w') /\
    Z.of_nat (List.length res) <= 3.
Proof.
  assert (HN : 1 <= 3) by lia.
  split; [exact HN|]. eexists. eexists.
  assert (Hrun : get_all_posts plain_runtime feed fstr default_api 5 "new" (Some 3) w0
                 = (Returns _, _)) by (vm_compute; reflexivity).
  split; [exact Hrun|].
  exact (proj1 (collectors_respect_limit plain_runtime feed fstr default_api 3 5 "new" w0 _ _ HN)
           Hrun).
Defined.

Lemma collectors_end_within_limit_witness :
  1 <= 3 /\
  3 <= Z.of_nat 3 /\
  fst (get_all_posts plain_runtime feed fstr default_api 3 "new" (Some 3) w0) <> OutOfFuel.
Proof.
  assert (HN : 1 <= 3) by lia.
  assert (Hf : 3 <= Z.of_nat 3) by (simpl; lia).
  split; [exact HN|]. split; [exact Hf|].
  exact (proj1 (collectors_end_within_limit plain_runtime feed fstr default_api 3 3 "new" w0 HN Hf)).
Defined.

(** The endless fixture feed has a page with a record and a cursor for
    every request. *)
Lemma endless_feed_pages (c : json) (w : World) :
  exists pg w',
    get_posts plain_runtime endless_feed fstr default_api "new" 100 c w = (Returns pg, w') /\
    page_posts pg <> [] /\ truthy (next_cursor pg) = true.
Proof.
  exists (mkPage [feed_post "p1"] (JStr "p1")). eexists.
  split; [|split; [discriminate | reflexivity]].
  rewrite get_posts_unfold. unfold bind, _request, range. cbn. reflexivity.
Defined.

Lemma endless_feed_never_ends_witness :
  fst (get_all_posts plain_runtime endless_feed fstr default_api 1000 "new" None w0) = OutOfFuel.
Proof.
  exact (proj1 (endless_feed_never_ends plain_runtime endless_feed fstr default_api "new"
                  endless_feed_pages 1000%nat w0)).
Defined.

Lemma crab_chain :
  exists w',
    fetched_chain (get_submolt_posts plain_runtime crab_feed fstr default_api "crabs" "new" 100)
                  JNull w0 crab_pages w'.
Proof.
  eexists. unfold crab_pages.
  eapply fetched_next; [vm_compute; reflexivity | reflexivity |].
  eapply fetched_last. vm_compute. reflexivity.
Defined.

Lemma submolt_collection_is_concatenation_witness :
  exists fuel w',
    get_all_submolt_posts plain_runtime crab_feed fstr default_api fuel "crabs" "new" None w0 =
      (Returns [feed_post "p1"; feed_post "p2"; feed_post "p3"], w').
Proof.
  destruct crab_chain as [w' Hch].
  destruct (proj2 (submolt_collection_is_concatenation plain_runtime crab_feed fstr default_api
                     "crabs" "new" None w0 w' (all_records crab_pages)))
    as [fuel Hrun].
  - exists crab_pages. split; [exact Hch|]. split; reflexivity.
  - exists fuel, w'. exact Hrun.
Defined.

Lemma negative_limit_cuts_first_page_witness :
  -1 < 0 /\
  exists w',
    get_posts plain_runtime feed fstr default_api "new" 100 JNull w0
      = (Returns (mkPage [feed_post "p1"; feed_post "p2"] (JStr "p2")), w') /\
    get_all_posts plain_runtime feed fstr default_api 5 "new" (Some (-1)) w0
      = (Returns [feed_post "p1"], w').
Proof.
  assert (HN : -1 < 0) by lia.
  split; [exact HN|]. eexists.
  assert (Hpg : get_posts plain_runtime feed fstr default_api "new" 100 JNull w0
      = (Returns (mkPage [feed_post "p1"; feed_post "p2"] (JStr "p2")), _))
    by (vm_compute; reflexivity).
  split; [exact Hpg|].
  refine (proj1 (negative_limit_cuts_first_page plain_runtime feed fstr default_api (-1) 4 "new"
                   w0 _ _ HN _) Hpg).
  discriminate.
Defined.
